(** * Sales dashboard: the filtering and aggregation core of dashboard_app.py

    The script loads a table of sales, derives three calendar columns,
    selects rows with a boolean mask built from five column tests, and
    computes group-by sums, a mean, counts and a top-10 over the selection.

    A DataFrame is a list of rows in index order, a Series a list of cells
    in the same order.  The rows of the main model carry amounts as exact
    integers (an amount in the smallest currency unit); the arithmetic
    pandas does on an int64 and on a float64 column is modelled apart, in
    [sum_int64] and in [Float64], for the statements that depend on
    it. *)

From Stdlib Require Import ZArith List Bool String Ascii Lia.
From Stdlib Require Import Permutation Sorting.Sorted QArith.
From Stdlib Require Import DecimalString DecimalPos DecimalN Floats.
Import ListNotations.
Local Open Scope Z_scope.

(** ** Timestamps *)

(** A parsed Order_Date: the calendar fields a pandas Timestamp exposes.
    The column holds dates without a time of day. *)
Record Timestamp : Type := mkTimestamp {
  ts_year : Z;
  ts_month : Z;
  ts_day : Z
}.

(** Chronological comparison [a <= b] of two timestamps. *)
Definition ts_leb (a b : Timestamp) : bool :=
  (ts_year a <? ts_year b)
  || ((ts_year a =? ts_year b)
      && ((ts_month a <? ts_month b)
          || ((ts_month a =? ts_month b) && (ts_day a <=? ts_day b)))).

Definition ts_le (a b : Timestamp) : Prop := ts_leb a b = true.
Definition ts_lt (a b : Timestamp) : Prop := ts_leb b a = false.

(** ** The pandas operations the script calls *)

Module Pandas.

(** Keys a table can be grouped by: equality test and the order
    [groupby] sorts its groups with. *)
Class GroupKey (K : Type) : Type := {
  key_eqb : K -> K -> bool;
  key_leb : K -> K -> bool;
  key_eqb_spec : forall a b, reflect (a = b) (key_eqb a b)
}.

#[export] Instance string_key : GroupKey string := {
  key_eqb := String.eqb;
  key_leb := String.leb;
  key_eqb_spec := String.eqb_spec
}.

#[export] Instance Z_key : GroupKey Z := {
  key_eqb := Z.eqb;
  key_leb := Z.leb;
  key_eqb_spec := Z.eqb_spec
}.

(** A scalar result of a floating reduction: a number or NaN. *)
Inductive scalar : Type :=
| NaN : scalar
| Num : Q -> scalar.

Section Frames.
Context {R : Type}.

(** [df[col]]: the column as a Series. *)
Definition column {A : Type} (col : R -> A) (df : list R) : list A :=
  map col df.

(** [mask1 & mask2], cell by cell. *)
Definition mask_and (m1 m2 : list bool) : list bool :=
  map (fun p => fst p && snd p) (combine m1 m2).

(** [df[mask]]: the rows whose mask cell is True, in index order. *)
Fixpoint boolean_index (df : list R) (mask : list bool) : list R :=
  match df, mask with
  | r :: df', b :: mask' =>
      if b then r :: boolean_index df' mask' else boolean_index df' mask'
  | _, _ => []
  end.

(** [df.head(n)] and [len(df)]. *)
Definition head (n : nat) (df : list R) : list R := firstn n df.
Definition len (df : list R) : Z := Z.of_nat (List.length df).
End Frames.

(** [series >= t] and [series <= t] on a datetime Series. *)
Definition series_ge (s : list Timestamp) (t : Timestamp) : list bool :=
  map (fun d => ts_leb t d) s.
Definition series_le (s : list Timestamp) (t : Timestamp) : list bool :=
  map (fun d => ts_leb d t) s.

(** [series > x] on a numeric Series. *)
Definition series_gt (s : list Z) (x : Z) : list bool :=
  map (fun v => x <? v) s.

(** [series.isin(values)]. *)
Definition isin {K} `{GroupKey K} (s : list K) (values : list K) : list bool :=
  map (fun v => existsb (key_eqb v) values) s.

(** [series.unique()]: distinct cells in order of first appearance. *)
Fixpoint unique {K} `{GroupKey K} (s : list K) : list K :=
  match s with
  | [] => []
  | v :: s' => v :: filter (fun w => negb (key_eqb w v)) (unique s')
  end.

(** [series.sum()] in exact arithmetic; the sum of an empty Series is
    0.  On a boolean Series it counts the True cells.  What an int64
    column adds up to is [sum_int64] below, what a float64 column adds
    up to is [Float64.series_sum]. *)
Definition sum (s : list Z) : Z := fold_right Z.add 0 s.
Definition sum_bool (s : list bool) : Z := sum (map Z.b2z s).

(** [series.mean()]: sum over count, NaN when there is no cell.  The
    quotient is kept exact; pandas rounds it to a float64. *)
Definition mean (s : list Z) : scalar :=
  let count := Z.of_nat (List.length s) in
  if 0 <? count then Num (Qmake (sum s) 1 / Qmake count 1)%Q else NaN.

(** [series.min()] and [series.max()] on a datetime Series; on an empty
    Series pandas gives NaT, here [None]. *)
Definition ts_min (a b : Timestamp) := if ts_leb a b then a else b.
Definition ts_max (a b : Timestamp) := if ts_leb a b then b else a.

Definition series_min (s : list Timestamp) : option Timestamp :=
  match s with
  | [] => None
  | d :: s' => Some (fold_left ts_min s' d)
  end.

Definition series_max (s : list Timestamp) : option Timestamp :=
  match s with
  | [] => None
  | d :: s' => Some (fold_left ts_max s' d)
  end.

(** *** Sorting *)

Section Sorting.
Context {A : Type} (leb : A -> A -> bool).

(** Insertion into an ascending list: the element stops in front of the
    first element that is not smaller. *)
Fixpoint insert_sorted (x : A) (l : list A) : list A :=
  match l with
  | [] => [x]
  | y :: l' => if leb x y then x :: y :: l' else y :: insert_sorted x l'
  end.

(** Ascending sort that keeps equal elements in their input order. *)
Definition argsort (l : list A) : list A :=
  fold_right insert_sorted [] l.
End Sorting.

(** An entry of a Series indexed by group key. *)
Definition value_leb {K} (a b : K * Z) : bool := snd a <=? snd b.

(** [series.sort_values(ascending=...)].  For a descending sort pandas
    reverses the values, sorts them ascending and reverses the
    outcome.  Equal values stay in their input order here, as numpy
    leaves them in a Series of up to 16 entries; on a longer Series its
    default sort kind may exchange them. *)
Definition sort_values {K} (ascending : bool) (s : list (K * Z)) : list (K * Z) :=
  if ascending then argsort value_leb s
  else rev (argsort value_leb (rev s)).

(** *** Grouping *)

Section GroupBy.
Context {R K : Type} `{GroupKey K}.

(** The group keys of [df.groupby(by)]: the distinct keys, sorted. *)
Definition group_keys (by_ : R -> K) (df : list R) : list K :=
  argsort key_leb (unique (column by_ df)).

(** The rows of one group. *)
Definition get_group (by_ : R -> K) (k : K) (df : list R) : list R :=
  filter (fun r => key_eqb (by_ r) k) df.

(** [df.groupby(by)[col].sum()]. *)
Definition groupby_sum (by_ : R -> K) (col : R -> Z) (df : list R)
  : list (K * Z) :=
  map (fun k => (k, sum (column col (get_group by_ k df))))
      (group_keys by_ df).

(** [df[by].value_counts()]: the count of each distinct value, the
    most frequent first. *)
Definition value_counts (by_ : R -> K) (df : list R) : list (K * Z) :=
  sort_values false
    (map (fun k => (k, len (get_group by_ k df))) (unique (column by_ df))).
End GroupBy.

End Pandas.

Export Pandas.

(** ** The arithmetic of an int64 column *)

(** The int64 value an integer wraps to. *)
Definition wrap64 (z : Z) : Z := (z + 2 ^ 63) mod 2 ^ 64 - 2 ^ 63.

Definition add64 (a b : Z) : Z := wrap64 (a + b).

(** [series.sum()] on an int64 Series: the cells are added one after
    another, every addition wrapping. *)
Definition sum_int64 (s : list Z) : Z := fold_left add64 s 0.

(** [df.groupby(by)[col].sum()] on an int64 column. *)
Definition groupby_sum_int64 {R K : Type} `{GroupKey K}
  (by_ : R -> K) (col : R -> Z) (df : list R) : list (K * Z) :=
  map (fun k => (k, sum_int64 (column col (get_group by_ k df))))
      (group_keys by_ df).

(** ** The arithmetic of a float64 column *)

Module Float64.

#[local] Set Warnings "-inexact-float".

(** [series.sum()] on a float64 Series of fewer than eight cells: the
    cells are added to 0 one after another, every addition rounded.
    Longer Series are added in blocks; they are left out ([None]). *)
Definition series_sum (s : list float) : option float :=
  if (List.length s <? 8)%nat
  then Some (fold_left PrimFloat.add s 0%float)
  else None.

(** One cell added to a group's running sum and compensation: the
    compensation is what the previous additions lost, and is reset when
    it is not a number. *)
Definition group_sum_step (acc : float * float) (val : float) : float * float :=
  let y := (val - snd acc)%float in
  let t := (fst acc + y)%float in
  let c := (t - fst acc - y)%float in
  (t, if PrimFloat.eqb c c then c else 0%float).

(** The sum of the cells of one group. *)
Definition group_sum (cells : list float) : float :=
  fst (fold_left group_sum_step cells (0%float, 0%float)).

(** [df.groupby(by)[col].sum()] on a float64 column. *)
Definition groupby_sum {R K : Type} `{GroupKey K}
  (by_ : R -> K) (col : R -> float) (df : list R) : list (K * float) :=
  map (fun k => (k, group_sum (column col (get_group by_ k df))))
      (group_keys by_ df).

(** Three sales in two categories, with prices 0.1, 0.2 and 0.3. *)
Definition three_prices : list (string * float) :=
  [("A"%string, 0.1%float); ("B"%string, 0.2%float); ("B"%string, 0.3%float)].

End Float64.

(** ** The script *)

(** A record of sales_data.csv as [read_csv] and [to_datetime] deliver
    it: the columns the script reads. *)
Record CsvRecord : Type := mkCsvRecord {
  csv_Order_Date : Timestamp;
  csv_Category : string;
  csv_Product : string;
  csv_Region : string;
  csv_Customer_Segment : string;
  csv_Payment_Method : string;
  csv_Quantity : Z;
  csv_Final_Price : Z;
  csv_Discount_Amount : Z;
  csv_Discount_Percent : Z
}.

(** A row of the loaded table [df]: the file's columns and the three
    calendar columns [load_data] adds. *)
Record Row : Type := mkRow {
  Order_Date : Timestamp;
  Category : string;
  Product : string;
  Region : string;
  Customer_Segment : string;
  Payment_Method : string;
  Quantity : Z;
  Final_Price : Z;
  Discount_Amount : Z;
  Discount_Percent : Z;
  Month : Z;
  Month_Name : string;
  Year : Z
}.

(** [strftime('%B')]: the full name of a month. *)
Definition month_name (m : Z) : string :=
  match m with
  | 1 => "January" | 2 => "February" | 3 => "March" | 4 => "April"
  | 5 => "May" | 6 => "June" | 7 => "July" | 8 => "August"
  | 9 => "September" | 10 => "October" | 11 => "November"
  | 12 => "December" | _ => EmptyString
  end%string.

(** [load_data]: Month, Month_Name and Year are derived from Order_Date,
    row by row. *)
Definition load_row (c : CsvRecord) : Row :=
  {| Order_Date := csv_Order_Date c;
     Category := csv_Category c;
     Product := csv_Product c;
     Region := csv_Region c;
     Customer_Segment := csv_Customer_Segment c;
     Payment_Method := csv_Payment_Method c;
     Quantity := csv_Quantity c;
     Final_Price := csv_Final_Price c;
     Discount_Amount := csv_Discount_Amount c;
     Discount_Percent := csv_Discount_Percent c;
     Month := ts_month (csv_Order_Date c);
     Month_Name := month_name (ts_month (csv_Order_Date c));
     Year := ts_year (csv_Order_Date c) |}.

Definition load_data (csv : list CsvRecord) : list Row := map load_row csv.

(** The sidebar's five inputs. *)
Record Filters : Type := mkFilters {
  start_date : Timestamp;
  end_date : Timestamp;
  categories : list string;
  regions : list string;
  segments : list string
}.

(** [pd.to_datetime] of a picked date: the timestamp of that day. *)
Definition to_datetime (d : Timestamp) : Timestamp := d.

(** The bounds and the default selections the sidebar starts with, all
    computed from the unfiltered table. *)
Definition min_date (df : list Row) : option Timestamp :=
  series_min (column Order_Date df).
Definition max_date (df : list Row) : option Timestamp :=
  series_max (column Order_Date df).

Definition default_filters (df : list Row) : option Filters :=
  match min_date df, max_date df with
  | Some lo, Some hi =>
      Some {| start_date := lo;
              end_date := hi;
              categories := unique (column Category df);
              regions := unique (column Region df);
              segments := unique (column Customer_Segment df) |}
  | _, _ => None
  end.

(** The mask of "Apply filters": five column tests joined by [&]. *)
Definition filter_mask (df : list Row) (f : Filters) : list bool :=
  mask_and
    (mask_and
       (mask_and
          (mask_and
             (series_ge (column Order_Date df) (to_datetime (start_date f)))
             (series_le (column Order_Date df) (to_datetime (end_date f))))
          (isin (column Category df) (categories f)))
       (isin (column Region df) (regions f)))
    (isin (column Customer_Segment df) (segments f)).

Definition df_filtered (df : list Row) (f : Filters) : list Row :=
  boolean_index df (filter_mask df f).

(** The two tables the script holds once the filters are applied. *)
Record Env : Type := mkEnv {
  env_df : list Row;
  env_df_filtered : list Row
}.

Definition apply_filters (f : Filters) (e : Env) : Env :=
  {| env_df := env_df e;
     env_df_filtered := df_filtered (env_df e) f |}.

(** *** Key metrics *)

Definition total_revenue (t : list Row) : Z := sum (column Final_Price t).
Definition avg_order_value (t : list Row) : scalar := mean (column Final_Price t).
Definition total_items (t : list Row) : Z := sum (column Quantity t).
Definition total_customers (t : list Row) : Z := len t.
Definition segment_count (t : list Row) : Z :=
  len (unique (column Customer_Segment t)).
Definition discount_amount (t : list Row) : Z := sum (column Discount_Amount t).
Definition discounted_orders (t : list Row) : Z :=
  sum_bool (series_gt (column Discount_Percent t) 0).

(** *** Aggregate views *)

Definition category_data (t : list Row) : list (string * Z) :=
  sort_values true (groupby_sum Category Final_Price t).
Definition monthly_data (t : list Row) : list (Z * Z) :=
  groupby_sum Month Final_Price t.
Definition region_data (t : list Row) : list (string * Z) :=
  groupby_sum Region Final_Price t.
Definition segment_data (t : list Row) : list (string * Z) :=
  sort_values false (groupby_sum Customer_Segment Final_Price t).
Definition payment_data (t : list Row) : list (string * Z) :=
  value_counts Payment_Method t.
Definition top_products (t : list Row) : list (string * Z) :=
  head 10 (sort_values false (groupby_sum Product Final_Price t)).

(** The top-N view for any group column, value column and N; the
    Top 10 Products panel is its instance at Product, Final_Price, 10. *)
Definition top_n_by_sum {K} `{GroupKey K}
  (t : list Row) (g : Row -> K) (v : Row -> Z) (n : nat) : list (K * Z) :=
  head n (sort_values false (groupby_sum g v t)).

(** *** Detailed sales data *)

(** A row of the data table shown under the charts: the eight columns
    the script selects, in the order it lists them. *)
Record DetailRow : Type := mkDetailRow {
  d_Order_Date : Timestamp;
  d_Category : string;
  d_Product : string;
  d_Final_Price : Z;
  d_Quantity : Z;
  d_Customer_Segment : string;
  d_Region : string;
  d_Payment_Method : string
}.

(** [df[['Order_Date', 'Category', ...]]]: the selection of columns. *)
Definition detail_columns (r : Row) : DetailRow :=
  {| d_Order_Date := Order_Date r;
     d_Category := Category r;
     d_Product := Product r;
     d_Final_Price := Final_Price r;
     d_Quantity := Quantity r;
     d_Customer_Segment := Customer_Segment r;
     d_Region := Region r;
     d_Payment_Method := Payment_Method r |}.

Definition detail_table (t : list Row) : list DetailRow :=
  head 100 (map detail_columns t).

(** *** Figures as text *)

(** [str(n)] of a natural number: its decimal digits. *)
Definition decimal (n : N) : list ascii :=
  list_ascii_of_string (NilZero.string_of_uint (N.to_uint n)).

(** The comma of the [,] format option. *)
Definition comma : ascii := ","%char.

(** Grouping by thousands, on the digits taken from the units up: a
    comma goes after every third digit that has a digit after it. *)
Fixpoint group_thousands (units_first : list ascii) : list ascii :=
  match units_first with
  | a :: b :: c :: rest =>
      match rest with
      | [] => [a; b; c]
      | _ :: _ => a :: b :: c :: comma :: group_thousands rest
      end
  | _ => units_first
  end.

(** [f"{n:,}"] of an integer. *)
Definition format_thousands (n : Z) : string :=
  let body :=
    string_of_list_ascii
      (rev (group_thousands (rev (decimal (Z.to_N (Z.abs n)))))) in
  if n <? 0 then String "-"%char body else body.

(** The value of the Total Orders card. *)
Definition total_orders_value (t : list Row) : string :=
  format_thousands (total_customers t).

(** ** The engine contract as the specification words it *)

Module Contract.

Inductive error : Type :=
| DataFormatError : error
| InvalidRangeError : error.

Inductive outcome (A : Type) : Type :=
| Returned : A -> outcome A
| Raised : error -> outcome A.
Arguments Returned {A} _.
Arguments Raised {A} _.

(** The retention test of the contract: the date lies in the inclusive
    range and each categorical value is a member of its set. *)
Definition retained (f : Filters) (r : Row) : bool :=
  ts_leb (start_date f) (Order_Date r)
  && ts_leb (Order_Date r) (end_date f)
  && existsb (String.eqb (Category r)) (categories f)
  && existsb (String.eqb (Region r)) (regions f)
  && existsb (String.eqb (Customer_Segment r)) (segments f).

(** [filter(table, criteria)]: an inverted range is an error. *)
Definition filter (table : list Row) (f : Filters) : outcome (list Row) :=
  if ts_leb (start_date f) (end_date f)
  then Returned (List.filter (retained f) table)
  else Raised InvalidRangeError.

(** [aggregate_mean]: the mean of no value is 0 by policy. *)
Definition aggregate_mean (v : Row -> Z) (table : list Row) : scalar :=
  match table with
  | [] => Num 0
  | _ => mean (column v table)
  end.

End Contract.

(** What evaluating the script's filter expression gives: the
    expression has no raising branch. *)
Definition run_filter (df : list Row) (f : Filters) : Contract.outcome (list Row) :=
  Contract.Returned (df_filtered df f).

(** ** Predicates of the statements *)

(** A row meets the criteria: all four tests at once. *)
Definition meets (f : Filters) (r : Row) : Prop :=
  (ts_le (start_date f) (Order_Date r) /\ ts_le (Order_Date r) (end_date f))
  /\ In (Category r) (categories f)
  /\ In (Region r) (regions f)
  /\ In (Customer_Segment r) (segments f).

(** [Subsequence l1 l2]: [l1] is [l2] with some elements left out, the
    others in their order. *)
Inductive Subsequence {A : Type} : list A -> list A -> Prop :=
| sub_nil : Subsequence [] []
| sub_keep : forall x l1 l2, Subsequence l1 l2 -> Subsequence (x :: l1) (x :: l2)
| sub_skip : forall x l1 l2, Subsequence l1 l2 -> Subsequence l1 (x :: l2).

(** Orders on the entries of a Series of sums. *)
Definition sum_ge {K} (a b : K * Z) : Prop := snd b <= snd a.
Definition sum_gt {K} (a b : K * Z) : Prop := snd b < snd a.
Definition has_sum {K} (s : Z) (e : K * Z) : bool := snd e =? s.

(** What the first [n] entries [top] of a descending arrangement of the
    grouped sums have. *)
Definition top_n_contract {K : Type} `{GroupKey K}
  (t : list Row) (g : Row -> K) (v : Row -> Z) (n : nat)
  (top : list (K * Z)) : Prop :=
  List.length top = Nat.min n (List.length (unique (column g t)))
  /\ NoDup (map fst top)
  /\ StronglySorted sum_ge top
  /\ (forall e, In e top -> In e (groupby_sum g v t))
  /\ (forall e e', In e top -> In e' (groupby_sum g v t) ->
                   ~ In e' top -> snd e' <= snd e).

(** [f] asks for no more than [f']: a range inside the range, and
    selections inside the selections. *)
Definition narrows (f f' : Filters) : Prop :=
  ts_le (start_date f') (start_date f)
  /\ ts_le (end_date f) (end_date f')
  /\ incl (categories f) (categories f')
  /\ incl (regions f) (regions f')
  /\ incl (segments f) (segments f').

(** The test of the "orders with a discount" count. *)
Definition discounted (r : Row) : bool := 0 <? Discount_Percent r.

(** Reading a figure back: the commas are dropped and the digits
    parsed. *)
Definition strip_commas (s : string) : string :=
  string_of_list_ascii
    (filter (fun c => negb (Ascii.eqb c comma)) (list_ascii_of_string s)).

Definition read_count (s : string) : option Z :=
  option_map (fun d => Z.of_N (N.of_uint d))
             (NilZero.uint_of_string (strip_commas s)).

(** *** A small table to evaluate the script on *)

Definition sale (d : Timestamp) (cat prod reg seg : string) (price : Z)
  : CsvRecord :=
  {| csv_Order_Date := d;
     csv_Category := cat;
     csv_Product := prod;
     csv_Region := reg;
     csv_Customer_Segment := seg;
     csv_Payment_Method := "Card";
     csv_Quantity := 1;
     csv_Final_Price := price;
     csv_Discount_Amount := 0;
     csv_Discount_Percent := 0 |}.

Definition sample_csv : list CsvRecord :=
  [ sale (mkTimestamp 2024 1 5) "A" "Lamp" "West" "Consumer" 100;
    sale (mkTimestamp 2024 2 10) "B" "Desk" "East" "Corporate" 50;
    sale (mkTimestamp 2023 1 20) "A" "Desk" "West" "Consumer" 50 ]%string.

Definition sample_df : list Row := load_data sample_csv.

(** Eleven products A to K, one sale each, at prices 1 to 11. *)
Definition eleven_products : list Row :=
  load_data
    (map (fun p => sale (mkTimestamp 2024 1 1) "A"
                        (String (ascii_of_nat (Z.to_nat (64 + p))) EmptyString)
                        "West" "Consumer" p)
         [1; 2; 3; 4; 5; 6; 7; 8; 9; 10; 11]).

(** January 2024, category A, region West, segment Consumer. *)
Definition january_filters : Filters :=
  {| start_date := mkTimestamp 2024 1 1;
     end_date := mkTimestamp 2024 1 31;
     categories := ["A"]%string;
     regions := ["West"]%string;
     segments := ["Consumer"]%string |}.

(** The same with the two dates exchanged. *)
Definition inverted_filters : Filters :=
  {| start_date := mkTimestamp 2024 1 31;
     end_date := mkTimestamp 2024 1 1;
     categories := ["A"]%string;
     regions := ["West"]%string;
     segments := ["Consumer"]%string |}.

(** All dates and categories, no region. *)
Definition no_region_filters : Filters :=
  {| start_date := mkTimestamp 2023 1 1;
     end_date := mkTimestamp 2024 12 31;
     categories := ["A"; "B"]%string;
     regions := [];
     segments := ["Consumer"; "Corporate"]%string |}.

(** ** Timestamps are totally ordered *)

Ltac ts_order :=
  unfold ts_le, ts_lt, ts_leb in *;
  repeat match goal with
         | H : _ = false |- _ => apply not_true_iff_false in H
         | |- _ = false => apply not_true_iff_false
         end;
  rewrite ?orb_true_iff, ?andb_true_iff, ?Z.ltb_lt, ?Z.eqb_eq, ?Z.leb_le in *;
  lia.

Lemma ts_leb_refl (a : Timestamp) : ts_leb a a = true.
Proof. ts_order. Qed.

Lemma ts_leb_trans (a b c : Timestamp) :
  ts_leb a b = true -> ts_leb b c = true -> ts_leb a c = true.
Proof. intros Hab Hbc. ts_order. Qed.

Lemma ts_leb_total (a b : Timestamp) : ts_leb a b = true \/ ts_leb b a = true.
Proof. ts_order. Qed.

Lemma ts_leb_false (a b : Timestamp) : ts_leb a b = false -> ts_leb b a = true.
Proof. intros H. destruct (ts_leb_total a b); congruence. Qed.

(** ** Masks and boolean indexing *)

Section MaskFacts.
Context {R : Type}.

Lemma mask_and_map (p q : R -> bool) (l : list R) :
  mask_and (map p l) (map q l) = map (fun r => p r && q r) l.
Proof.
  unfold mask_and.
  induction l as [|r l IH]; simpl; [reflexivity|].
  now rewrite IH.
Qed.

Lemma boolean_index_map (p : R -> bool) (l : list R) :
  boolean_index l (map p l) = List.filter p l.
Proof.
  induction l as [|r l IH]; simpl; [reflexivity|].
  rewrite IH. reflexivity.
Qed.

Lemma filter_idem (p : R -> bool) (l : list R) :
  List.filter p (List.filter p l) = List.filter p l.
Proof.
  induction l as [|r l IH]; simpl; [reflexivity|].
  destruct (p r) eqn:E; simpl; rewrite ?E, IH; reflexivity.
Qed.

Lemma filter_none (p : R -> bool) (l : list R) :
  (forall r, In r l -> p r = false) -> List.filter p l = [].
Proof.
  induction l as [|r l IH]; simpl; intros Hp; [reflexivity|].
  rewrite (Hp r (or_introl eq_refl)). apply IH. intros; apply Hp; now right.
Qed.

Lemma filter_all (p : R -> bool) (l : list R) :
  (forall r, In r l -> p r = true) -> List.filter p l = l.
Proof.
  induction l as [|r l IH]; simpl; intros Hp; [reflexivity|].
  rewrite (Hp r (or_introl eq_refl)). f_equal. apply IH. intros; apply Hp; now right.
Qed.

Lemma filter_Subsequence (p : R -> bool) (l : list R) :
  Subsequence (List.filter p l) l.
Proof.
  induction l as [|r l IH]; simpl; [constructor|].
  destruct (p r); now constructor.
Qed.

Lemma Subsequence_In (l1 l2 : list R) :
  Subsequence l1 l2 -> forall r, In r l1 -> In r l2.
Proof.
  induction 1 as [|x l1 l2 _ IH|x l1 l2 _ IH]; simpl; intros r Hr; auto.
  destruct Hr as [->|Hr]; auto.
Qed.
End MaskFacts.

Lemma isin_test (x : string) (values : list string) :
  existsb (String.eqb x) values = true <-> In x values.
Proof.
  rewrite existsb_exists. split.
  - intros [y [Hy E]]. apply String.eqb_eq in E. now subst.
  - intros Hx. exists x. split; [assumption | apply String.eqb_refl].
Qed.

(** The mask selects the rows that pass the five tests. *)
Lemma df_filtered_as_filter (df : list Row) (f : Filters) :
  df_filtered df f = List.filter (Contract.retained f) df.
Proof.
  unfold df_filtered, filter_mask, series_ge, series_le, isin, column, to_datetime.
  rewrite !map_map, !mask_and_map.
  apply boolean_index_map.
Qed.

Lemma retained_meets (f : Filters) (r : Row) :
  Contract.retained f r = true <-> meets f r.
Proof.
  unfold Contract.retained, meets, ts_le.
  rewrite !andb_true_iff, !isin_test. tauto.
Qed.

(** ** Filtering *)

(** C1: a row of the result is a row of the table that passes the date
    range test (both bounds included) and the three membership tests,
    all at once; the result is the table with exactly the failing rows
    left out. *)
Theorem filter_retains_iff_all_tests (df : list Row) (f : Filters) :
  (forall r, In r (df_filtered df f) <-> In r df /\ meets f r)
  /\ df_filtered df f = List.filter (Contract.retained f) df
  /\ (forall r, Contract.retained f r = true <-> meets f r).
Proof.
  split; [|split].
  - intros r. rewrite df_filtered_as_filter, filter_In, retained_meets. tauto.
  - apply df_filtered_as_filter.
  - apply retained_meets.
Qed.

(** The January selection keeps the first sale only, and its revenue by
    category is that sale's price. *)
Lemma january_selection :
  map (fun r => (Category r, Product r, Final_Price r))
      (df_filtered sample_df january_filters)
  = [("A", "Lamp", 100)]%string
  /\ groupby_sum Category Final_Price (df_filtered sample_df january_filters)
     = [("A", 100)]%string.
Proof. split; reflexivity. Qed.

(** C6: filtering a filtered table again with the same criteria gives
    the same table. *)
Theorem filter_idempotent (df : list Row) (f : Filters) :
  df_filtered (df_filtered df f) f = df_filtered df f.
Proof.
  rewrite (df_filtered_as_filter (df_filtered df f)).
  rewrite df_filtered_as_filter.
  apply filter_idem.
Qed.

(** C8: with an empty selection of categories, of regions or of
    segments, no row is kept. *)
Theorem empty_selection_matches_nothing (df : list Row) (f : Filters) :
  categories f = [] \/ regions f = [] \/ segments f = [] ->
  df_filtered df f = [].
Proof.
  intros Hempty.
  rewrite df_filtered_as_filter.
  apply filter_none. intros r _.
  apply not_true_iff_false. rewrite retained_meets.
  unfold meets. intros (_ & Hc & Hr & Hs).
  destruct Hempty as [E | [E | E]]; rewrite E in *; contradiction.
Qed.

(** C9: the result holds the matching rows, whole and in the order of
    the table, and applying the filters leaves the table as it was. *)
Theorem filter_preserves_rows_and_source (e : Env) (f : Filters) :
  env_df (apply_filters f e) = env_df e
  /\ env_df_filtered (apply_filters f e)
     = List.filter (Contract.retained f) (env_df e)
  /\ Subsequence (env_df_filtered (apply_filters f e)) (env_df e)
  /\ (forall r, In r (env_df_filtered (apply_filters f e)) <->
                In r (env_df e) /\ meets f r).
Proof.
  unfold apply_filters; simpl.
  split; [reflexivity|].
  split; [apply df_filtered_as_filter|].
  split.
  - rewrite df_filtered_as_filter. apply filter_Subsequence.
  - intros r. rewrite df_filtered_as_filter, filter_In, retained_meets. tauto.
Qed.

Lemma empty_selection_matches_nothing_witness :
  df_filtered sample_df no_region_filters = [].
Proof.
  apply empty_selection_matches_nothing. right; left. reflexivity.
Defined.

(** On a range that is not inverted the script and the contract agree. *)
Lemma run_filter_meets_contract (df : list Row) (f : Filters) :
  ts_le (start_date f) (end_date f) ->
  Contract.filter df f = run_filter df f.
Proof.
  unfold Contract.filter, run_filter, ts_le. intros ->.
  now rewrite df_filtered_as_filter.
Qed.

(** C2, as the script has it: with the start date after the end date no
    row passes both date tests, and the script goes on with the empty
    table; nothing is raised. *)
Theorem inverted_range_selects_nothing (df : list Row) (f : Filters) :
  ts_lt (end_date f) (start_date f) ->
  run_filter df f = Contract.Returned [].
Proof.
  intros Hinv. unfold run_filter. f_equal.
  rewrite df_filtered_as_filter.
  apply filter_none. intros r _.
  apply not_true_iff_false. rewrite retained_meets.
  intros [[Hlo Hhi] _].
  unfold ts_lt, ts_le in *.
  rewrite (ts_leb_trans _ _ _ Hlo Hhi) in Hinv. discriminate.
Qed.

Lemma inverted_range_selects_nothing_witness :
  run_filter sample_df inverted_filters = Contract.Returned [].
Proof.
  apply inverted_range_selects_nothing. reflexivity.
Defined.

(** C2 as claimed fails: 31 January is after 1 January, the contract
    asks for InvalidRangeError, the script returns a table. *)
Lemma inverted_range_is_not_rejected :
  ts_lt (end_date inverted_filters) (start_date inverted_filters)
  /\ Contract.filter sample_df inverted_filters
     = Contract.Raised Contract.InvalidRangeError
  /\ run_filter sample_df inverted_filters = Contract.Returned []
  /\ run_filter sample_df inverted_filters
     <> Contract.Raised Contract.InvalidRangeError.
Proof.
  repeat split; try reflexivity. discriminate.
Qed.

(** ** Aggregates of the empty table *)

Lemma mean_NaN_iff (s : list Z) : mean s = NaN <-> s = [].
Proof.
  unfold mean. destruct s as [|x s]; simpl List.length.
  - split; reflexivity.
  - destruct (0 <? Z.of_nat (S (List.length s))) eqn:E.
    + split; discriminate.
    + apply Z.ltb_ge in E. lia.
Qed.

(** C3, as the script has it: on the empty table the order count and
    every sum are 0, every grouped view is empty, and the mean is NaN,
    the value pandas gives to the mean of no cell; the mean is a number
    exactly when the table has a row. *)
Theorem aggregates_of_empty_table :
  (forall t, avg_order_value t = NaN <-> t = [])
  /\ (forall t, total_customers t = 0 <-> t = [])
  /\ total_revenue [] = 0
  /\ total_items [] = 0
  /\ segment_count [] = 0
  /\ discount_amount [] = 0
  /\ discounted_orders [] = 0
  /\ category_data [] = []
  /\ monthly_data [] = []
  /\ region_data [] = []
  /\ segment_data [] = []
  /\ payment_data [] = []
  /\ top_products [] = [].
Proof.
  split.
  { intros t. unfold avg_order_value, column. rewrite mean_NaN_iff.
    destruct t; simpl; split; congruence. }
  split.
  { intros t. unfold total_customers, len.
    destruct t; simpl List.length; split; try congruence; lia. }
  repeat split; reflexivity.
Qed.

(** C3 as claimed fails: the mean over the empty table is NaN, where
    the contract has 0. *)
Lemma mean_of_empty_table_is_not_zero :
  avg_order_value [] = NaN
  /\ Contract.aggregate_mean Final_Price [] = Num 0
  /\ avg_order_value [] <> Contract.aggregate_mean Final_Price [].
Proof.
  repeat split; try reflexivity. discriminate.
Qed.

(** ** Distinct values *)

Section UniqueFacts.
Context {K : Type} `{GroupKey K}.

Lemma key_eqb_eq (a b : K) : key_eqb a b = true <-> a = b.
Proof. destruct (key_eqb_spec a b); split; congruence. Qed.

Lemma key_eqb_refl (a : K) : key_eqb a a = true.
Proof. now apply key_eqb_eq. Qed.

Lemma isin_cell (x : K) (values : list K) :
  existsb (key_eqb x) values = true <-> In x values.
Proof.
  rewrite existsb_exists. split.
  - intros [y [Hy E]]. apply key_eqb_eq in E. now subst.
  - intros Hx. exists x. split; [assumption | apply key_eqb_refl].
Qed.

Lemma unique_In (x : K) (s : list K) : In x (unique s) <-> In x s.
Proof.
  induction s as [|v s IH]; simpl; [tauto|].
  rewrite filter_In, IH, negb_true_iff.
  destruct (key_eqb_spec x v) as [->|Hne]; split; intros Hx; auto.
  - destruct Hx as [E|[Hx _]]; auto.
  - destruct Hx as [E|Hx]; auto.
Qed.

Lemma unique_NoDup (s : list K) : NoDup (unique s).
Proof.
  induction s as [|v s IH]; simpl; constructor.
  - rewrite filter_In, key_eqb_refl. intros [_ E]. discriminate.
  - now apply NoDup_filter.
Qed.
End UniqueFacts.

(** ** The earliest and the latest date bound every date *)

Lemma ts_min_lower (a b : Timestamp) :
  ts_leb (ts_min a b) a = true /\ ts_leb (ts_min a b) b = true.
Proof.
  unfold ts_min. destruct (ts_leb a b) eqn:E.
  - split; [apply ts_leb_refl | assumption].
  - split; [now apply ts_leb_false | apply ts_leb_refl].
Qed.

Lemma ts_max_upper (a b : Timestamp) :
  ts_leb a (ts_max a b) = true /\ ts_leb b (ts_max a b) = true.
Proof.
  unfold ts_max. destruct (ts_leb a b) eqn:E.
  - split; [assumption | apply ts_leb_refl].
  - split; [apply ts_leb_refl | now apply ts_leb_false].
Qed.

Lemma fold_ts_min_lower (s : list Timestamp) (d : Timestamp) :
  forall x, x = d \/ In x s -> ts_leb (fold_left ts_min s d) x = true.
Proof.
  revert d. induction s as [|y s IH]; simpl; intros d x Hx.
  - destruct Hx as [->|[]]. apply ts_leb_refl.
  - destruct (ts_min_lower d y) as [Hd Hy].
    destruct Hx as [->|[->|Hx]].
    + eapply ts_leb_trans; [apply IH; now left | exact Hd].
    + eapply ts_leb_trans; [apply IH; now left | exact Hy].
    + apply IH. now right.
Qed.

Lemma fold_ts_max_upper (s : list Timestamp) (d : Timestamp) :
  forall x, x = d \/ In x s -> ts_leb x (fold_left ts_max s d) = true.
Proof.
  revert d. induction s as [|y s IH]; simpl; intros d x Hx.
  - destruct Hx as [->|[]]. apply ts_leb_refl.
  - destruct (ts_max_upper d y) as [Hd Hy].
    destruct Hx as [->|[->|Hx]].
    + eapply ts_leb_trans; [exact Hd | apply IH; now left].
    + eapply ts_leb_trans; [exact Hy | apply IH; now left].
    + apply IH. now right.
Qed.

Lemma series_min_lower (s : list Timestamp) (lo x : Timestamp) :
  series_min s = Some lo -> In x s -> ts_leb lo x = true.
Proof.
  destruct s as [|d s]; simpl; [discriminate|].
  intros [= <-] Hx. apply fold_ts_min_lower.
  destruct Hx; auto.
Qed.

Lemma series_max_upper (s : list Timestamp) (hi x : Timestamp) :
  series_max s = Some hi -> In x s -> ts_leb x hi = true.
Proof.
  destruct s as [|d s]; simpl; [discriminate|].
  intros [= <-] Hx. apply fold_ts_max_upper.
  destruct Hx; auto.
Qed.

(** The range and selections computed from the table keep its rows. *)
Lemma table_bounds_keep_rows (df : list Row) (lo hi : Timestamp) :
  min_date df = Some lo ->
  max_date df = Some hi ->
  df_filtered df
    {| start_date := lo;
       end_date := hi;
       categories := unique (column Category df);
       regions := unique (column Region df);
       segments := unique (column Customer_Segment df) |} = df.
Proof.
  unfold min_date, max_date. intros Hlo Hhi.
  rewrite df_filtered_as_filter.
  apply filter_all. intros r Hr.
  apply retained_meets. unfold meets, ts_le; simpl.
  repeat split.
  - apply (series_min_lower _ _ _ Hlo). now apply in_map.
  - apply (series_max_upper _ _ _ Hhi). now apply in_map.
  - apply unique_In. now apply in_map.
  - apply unique_In. now apply in_map.
  - apply unique_In. now apply in_map.
Qed.

(** C7: with the earliest and the latest Order_Date of the table as the
    range and, for each categorical column, the distinct values of the
    table as the selection, every row is kept: the result is the
    table. *)
Theorem full_range_and_full_sets_keep_table (df : list Row) (lo hi : Timestamp) :
  min_date df = Some lo ->
  max_date df = Some hi ->
  df_filtered df
    {| start_date := lo;
       end_date := hi;
       categories := unique (column Category df);
       regions := unique (column Region df);
       segments := unique (column Customer_Segment df) |} = df.
Proof. exact (table_bounds_keep_rows df lo hi). Qed.

Lemma full_range_and_full_sets_keep_table_witness :
  df_filtered sample_df
    {| start_date := mkTimestamp 2023 1 20;
       end_date := mkTimestamp 2024 2 10;
       categories := unique (column Category sample_df);
       regions := unique (column Region sample_df);
       segments := unique (column Customer_Segment sample_df) |} = sample_df.
Proof.
  apply full_range_and_full_sets_keep_table; reflexivity.
Defined.

(** The sidebar's defaults are that identity case. *)
Lemma default_filters_keep_table (df : list Row) (f : Filters) :
  default_filters df = Some f -> df_filtered df f = df.
Proof.
  unfold default_filters.
  destruct (min_date df) as [lo|] eqn:Hlo; [|discriminate].
  destruct (max_date df) as [hi|] eqn:Hhi; [|discriminate].
  intros [= <-]. now apply table_bounds_keep_rows.
Qed.

(** ** Sorting *)

Section SortFacts.
Context {A : Type} (leb : A -> A -> bool).

Lemma insert_sorted_perm (x : A) (l : list A) :
  Permutation (insert_sorted leb x l) (x :: l).
Proof.
  induction l as [|y l IH]; simpl; [reflexivity|].
  destruct (leb x y); [reflexivity|].
  rewrite IH. apply perm_swap.
Qed.

Lemma argsort_perm (l : list A) : Permutation (argsort leb l) l.
Proof.
  induction l as [|x l IH]; simpl; [reflexivity|].
  rewrite insert_sorted_perm. now constructor.
Qed.

(** Equal elements are never exchanged: a test whose passing elements
    are all at or below one another sees them in the input order. *)
Lemma insert_sorted_stable (p : A -> bool) (x : A) (l : list A) :
  (forall a b, p a = true -> p b = true -> leb a b = true) ->
  filter p (insert_sorted leb x l) = filter p (x :: l).
Proof.
  intros Hp. induction l as [|y l IH]; [reflexivity|].
  simpl insert_sorted. destruct (leb x y) eqn:E; [reflexivity|].
  simpl in *. rewrite IH.
  destruct (p x) eqn:Px, (p y) eqn:Py; try reflexivity.
  rewrite (Hp x y Px Py) in E. discriminate.
Qed.

Lemma argsort_stable (p : A -> bool) (l : list A) :
  (forall a b, p a = true -> p b = true -> leb a b = true) ->
  filter p (argsort leb l) = filter p l.
Proof.
  intros Hp. induction l as [|x l IH]; [reflexivity|].
  simpl argsort. rewrite insert_sorted_stable by assumption.
  simpl. now rewrite IH.
Qed.

Section Total.
Hypothesis leb_total : forall a b, leb a b = true \/ leb b a = true.

Lemma insert_sorted_Sorted (x : A) (l : list A) :
  Sorted (fun a b => leb a b = true) l ->
  Sorted (fun a b => leb a b = true) (insert_sorted leb x l).
Proof.
  induction 1 as [|y l Hl IH Hy]; simpl.
  - repeat constructor.
  - destruct (leb x y) eqn:E.
    + repeat constructor; assumption.
    + constructor; [assumption|].
      destruct l as [|z l]; simpl.
      * constructor. destruct (leb_total x y); congruence.
      * destruct (leb x z); constructor.
        -- destruct (leb_total x y); congruence.
        -- now inversion Hy.
Qed.

Lemma argsort_Sorted (l : list A) :
  Sorted (fun a b => leb a b = true) (argsort leb l).
Proof.
  induction l as [|x l IH]; simpl; [constructor|].
  now apply insert_sorted_Sorted.
Qed.
End Total.
End SortFacts.

Lemma StronglySorted_app {A : Type} (R : A -> A -> Prop) (l1 l2 : list A) :
  StronglySorted R l1 -> StronglySorted R l2 ->
  (forall x y, In x l1 -> In y l2 -> R x y) ->
  StronglySorted R (l1 ++ l2).
Proof.
  induction 1 as [|a l1 Hl1 IH Ha]; simpl; intros Hl2 Hcross; [assumption|].
  constructor.
  - apply IH; auto.
  - apply Forall_app. split; [assumption|].
    apply Forall_forall. intros y Hy. apply Hcross; auto.
Qed.

Section OrderFacts.
Context {A : Type} (R : A -> A -> Prop).

Lemma StronglySorted_rev (l : list A) :
  StronglySorted R l -> StronglySorted (fun a b => R b a) (rev l).
Proof.
  induction 1 as [|a l Hl IH Ha]; simpl; [constructor|].
  apply StronglySorted_app; [assumption | repeat constructor |].
  intros x y Hx [<-|[]]. apply in_rev in Hx.
  rewrite Forall_forall in Ha. now apply Ha.
Qed.

Lemma StronglySorted_firstn (n : nat) (l : list A) :
  StronglySorted R l -> StronglySorted R (firstn n l).
Proof.
  intros Hl. revert n.
  induction Hl as [|a l Hl IH Ha]; intros [|n]; simpl; try constructor.
  - apply IH.
  - rewrite Forall_forall in *. intros x Hx. apply Ha.
    rewrite <- (firstn_skipn n l). apply in_or_app. now left.
Qed.
End OrderFacts.

Lemma firstn_incl {A : Type} (n : nat) (l : list A) (x : A) :
  In x (firstn n l) -> In x l.
Proof.
  intros Hx. rewrite <- (firstn_skipn n l). apply in_or_app. now left.
Qed.

Lemma filter_firstn_prefix {A : Type} (p : A -> bool) (n : nat) (l : list A) :
  exists rest, filter p l = filter p (firstn n l) ++ rest.
Proof.
  exists (filter p (skipn n l)).
  now rewrite <- filter_app, firstn_skipn.
Qed.

(** *** [sort_values] *)

Section SortValues.
Context {K : Type}.

Lemma value_leb_total (a b : K * Z) :
  value_leb a b = true \/ value_leb b a = true.
Proof. unfold value_leb. rewrite !Z.leb_le. lia. Qed.

Lemma sort_values_perm (ascending : bool) (s : list (K * Z)) :
  Permutation (sort_values ascending s) s.
Proof.
  unfold sort_values. destruct ascending.
  - apply argsort_perm.
  - rewrite <- Permutation_rev, argsort_perm. symmetry. apply Permutation_rev.
Qed.

Lemma argsort_values_ascending (s : list (K * Z)) :
  StronglySorted (fun a b : K * Z => snd a <= snd b) (argsort value_leb s).
Proof.
  apply Sorted_StronglySorted.
  - intros a b c Hab Hbc. lia.
  - pose proof (argsort_Sorted value_leb value_leb_total s) as Hs.
    induction Hs as [|a l Hl IH Ha]; constructor; [assumption|].
    destruct Ha as [|b l Hab]; constructor.
    now apply Z.leb_le.
Qed.

Lemma sort_values_descending (s : list (K * Z)) :
  StronglySorted sum_ge (sort_values false s).
Proof.
  unfold sort_values, sum_ge.
  apply (StronglySorted_rev (fun a b : K * Z => snd a <= snd b)).
  apply argsort_values_ascending.
Qed.

Lemma sort_values_ascending (s : list (K * Z)) :
  StronglySorted (fun a b : K * Z => snd a <= snd b) (sort_values true s).
Proof. apply argsort_values_ascending. Qed.

(** Entries of equal value come out in the order they went in, in
    both directions of the sort. *)
Lemma sort_values_stable (ascending : bool) (v : Z) (s : list (K * Z)) :
  filter (has_sum v) (sort_values ascending s) = filter (has_sum v) s.
Proof.
  assert (Hties : forall a b : K * Z,
             has_sum v a = true -> has_sum v b = true -> value_leb a b = true).
  { unfold has_sum, value_leb. intros a b Ha Hb.
    apply Z.eqb_eq in Ha, Hb. apply Z.leb_le. lia. }
  unfold sort_values. destruct ascending.
  - now apply argsort_stable.
  - rewrite filter_rev, argsort_stable, filter_rev, rev_involutive; auto.
Qed.
End SortValues.

(** ** Sums *)

Lemma sum_perm (l l' : list Z) : Permutation l l' -> sum l = sum l'.
Proof.
  unfold sum. induction 1; simpl; lia.
Qed.

Lemma sum_map_add {X : Type} (f h : X -> Z) (l : list X) :
  sum (map (fun k => f k + h k) l) = sum (map f l) + sum (map h l).
Proof.
  unfold sum. induction l as [|k l IH]; simpl; lia.
Qed.

(** ** Grouping *)

Section GroupFacts.
Context {R K : Type} `{GroupKey K} (g : R -> K) (v : R -> Z).

Lemma group_keys_perm (t : list R) :
  Permutation (group_keys g t) (unique (column g t)).
Proof. apply argsort_perm. Qed.

Lemma group_keys_NoDup (t : list R) : NoDup (group_keys g t).
Proof.
  apply (Permutation_NoDup (Permutation_sym (group_keys_perm t))).
  apply unique_NoDup.
Qed.

Lemma group_keys_In (k : K) (t : list R) :
  In k (group_keys g t) <-> In k (column g t).
Proof.
  split; intros Hk.
  - apply unique_In. exact (Permutation_in _ (group_keys_perm t) Hk).
  - apply (Permutation_in _ (Permutation_sym (group_keys_perm t))).
    now apply unique_In.
Qed.

Lemma group_keys_length (t : list R) :
  List.length (group_keys g t) = List.length (unique (column g t)).
Proof. apply Permutation_length, group_keys_perm. Qed.

Lemma groupby_sum_keys (t : list R) :
  map fst (groupby_sum g v t) = group_keys g t.
Proof.
  unfold groupby_sum. rewrite map_map. simpl. apply map_id.
Qed.

Lemma groupby_sum_In (k : K) (s : Z) (t : list R) :
  In (k, s) (groupby_sum g v t) <->
  In k (column g t) /\ s = sum (column v (get_group g k t)).
Proof.
  unfold groupby_sum. rewrite in_map_iff. split.
  - intros [k' [[= -> <-] Hk]]. split; [now apply group_keys_In | reflexivity].
  - intros [Hk ->]. exists k. split; [reflexivity | now apply group_keys_In].
Qed.

(** A row adds its value to the one group it belongs to. *)
Lemma sum_only_own_group (x : K) (c : Z) (ks : list K) :
  NoDup ks ->
  sum (map (fun k => if key_eqb x k then c else 0) ks)
  = if existsb (key_eqb x) ks then c else 0.
Proof.
  induction 1 as [|k ks Hk Hks IH]; simpl; [reflexivity|].
  unfold sum in *. simpl. rewrite IH.
  destruct (key_eqb_spec x k) as [->|Hne]; simpl; [|reflexivity].
  destruct (existsb (key_eqb k) ks) eqn:E; [|lia].
  apply isin_cell in E. contradiction.
Qed.

Lemma group_sums_cover (ks : list K) (t : list R) :
  NoDup ks ->
  (forall r, In r t -> In (g r) ks) ->
  sum (map (fun k => sum (column v (get_group g k t))) ks) = sum (column v t).
Proof.
  intros Hks. induction t as [|r t IH]; intros Hcover.
  - simpl. clear Hks Hcover. unfold sum.
    induction ks as [|k ks IHks]; simpl; [reflexivity | now rewrite IHks].
  - transitivity
      (sum (map (fun k => (if key_eqb (g r) k then v r else 0)
                          + sum (column v (get_group g k t))) ks)).
    + f_equal. apply map_ext. intros k. unfold get_group, column. simpl.
      destruct (key_eqb (g r) k); reflexivity.
    + rewrite sum_map_add, IH, sum_only_own_group by (simpl in *; auto).
      assert (E : existsb (key_eqb (g r)) ks = true).
      { apply isin_cell, Hcover. now left. }
      rewrite E. reflexivity.
Qed.

Lemma groupby_sum_total (t : list R) :
  sum (map snd (groupby_sum g v t)) = sum (column v t).
Proof.
  unfold groupby_sum. rewrite map_map. simpl.
  apply group_sums_cover.
  - apply group_keys_NoDup.
  - intros r Hr. apply group_keys_In. unfold column. now apply in_map.
Qed.

(** The groups come in ascending key order when the key order is
    total. *)
Lemma groupby_sum_keys_ascending (t : list R) :
  (forall a b : K, key_leb a b = true \/ key_leb b a = true) ->
  Sorted (fun a b => key_leb a b = true) (map fst (groupby_sum g v t)).
Proof.
  intros Htotal. rewrite groupby_sum_keys. now apply argsort_Sorted.
Qed.
End GroupFacts.

(** In exact arithmetic the sums of the groups add up to the sum of the
    value column, and the bars of the Revenue by Category panel to the
    total revenue. *)
Lemma groupby_sum_conserves_total {K : Type} `{GroupKey K}
  (t : list Row) (g : Row -> K) (v : Row -> Z) :
  sum (map snd (groupby_sum g v t)) = sum (column v t)
  /\ sum (map snd (category_data t)) = total_revenue t.
Proof.
  split; [apply groupby_sum_total|].
  unfold category_data, total_revenue.
  rewrite <- (groupby_sum_total Category Final_Price t).
  apply sum_perm, Permutation_map, sort_values_perm.
Qed.

(** *** Sums of an int64 column *)

Lemma wrap64_add_l (a b : Z) : wrap64 (wrap64 a + b) = wrap64 (a + b).
Proof.
  unfold wrap64. f_equal.
  replace ((a + 2 ^ 63) mod 2 ^ 64 - 2 ^ 63 + b + 2 ^ 63)
    with ((a + 2 ^ 63) mod 2 ^ 64 + b) by ring.
  rewrite Z.add_mod_idemp_l by lia. f_equal. ring.
Qed.

Lemma wrap64_add_r (a b : Z) : wrap64 (a + wrap64 b) = wrap64 (a + b).
Proof. rewrite Z.add_comm, wrap64_add_l. f_equal. ring. Qed.

Lemma fold_add64 (s : list Z) (a : Z) :
  fold_left add64 s (wrap64 a) = wrap64 (a + sum s).
Proof.
  revert a. induction s as [|x s IH]; intros a; simpl.
  - f_equal. unfold sum. simpl. ring.
  - unfold add64 at 2. rewrite wrap64_add_l, IH. f_equal.
    unfold sum. simpl. ring.
Qed.

(** Adding with wrap-around gives the exact sum, wrapped once. *)
Lemma sum_int64_wraps_sum (s : list Z) : sum_int64 s = wrap64 (sum s).
Proof.
  unfold sum_int64. change 0 with (wrap64 0) at 1.
  rewrite fold_add64. f_equal.
Qed.

Lemma wrap64_sum_of_wrapped {X : Type} (f : X -> Z) (l : list X) :
  wrap64 (sum (map (fun x => wrap64 (f x)) l)) = wrap64 (sum (map f l)).
Proof.
  induction l as [|x l IH]; [reflexivity|].
  unfold sum in *. cbn [map fold_right].
  rewrite wrap64_add_l, <- wrap64_add_r, IH, wrap64_add_r. reflexivity.
Qed.

(** C5, for a column of integers: the sums of the groups, added up,
    give the sum of the value column over the whole table, in the
    int64 arithmetic pandas uses on such a column, wrap-around
    included.  (On a float64 column the two sides are rounded
    differently and can differ.) *)
Theorem int64_group_sums_add_up_to_total {K : Type} `{GroupKey K}
  (t : list Row) (g : Row -> K) (v : Row -> Z) :
  sum_int64 (map snd (groupby_sum_int64 g v t)) = sum_int64 (column v t).
Proof.
  rewrite !sum_int64_wraps_sum.
  unfold groupby_sum_int64. rewrite map_map. cbn [snd].
  rewrite <- (group_sums_cover g v (group_keys g t) t).
  - rewrite <- (wrap64_sum_of_wrapped
                  (fun k => sum (column v (get_group g k t)))).
    f_equal. f_equal. apply map_ext. intros k. apply sum_int64_wraps_sum.
  - apply group_keys_NoDup.
  - intros r Hr. apply group_keys_In. unfold column. now apply in_map.
Qed.

#[local] Set Warnings "-inexact-float".

(** C5 as claimed fails on a float64 column: with prices 0.1 in one
    category and 0.2 and 0.3 in another, the whole column adds up to
    0.6000000000000001 and the two group sums to 0.6. *)
Lemma float_group_sums_miss_total :
  Float64.series_sum (column snd Float64.three_prices)
  = Some 0.6000000000000001%float
  /\ Float64.groupby_sum fst snd Float64.three_prices
     = [("A"%string, 0.1%float); ("B"%string, 0.5%float)]
  /\ Float64.series_sum
       (map snd (Float64.groupby_sum fst snd Float64.three_prices))
     = Some 0.6%float
  /\ Float64.series_sum
       (map snd (Float64.groupby_sum fst snd Float64.three_prices))
     <> Float64.series_sum (column snd Float64.three_prices).
Proof.
  split; [reflexivity|]. split; [reflexivity|]. split; [reflexivity|].
  intros E.
  apply (f_equal (fun o => match o with
                           | Some x => PrimFloat.eqb x 0.6%float
                           | None => false
                           end)) in E.
  vm_compute in E. discriminate E.
Qed.

(** ** Top N *)

Lemma StronglySorted_app_cross {A : Type} (R : A -> A -> Prop) (l1 l2 : list A) :
  StronglySorted R (l1 ++ l2) ->
  forall x y, In x l1 -> In y l2 -> R x y.
Proof.
  induction l1 as [|a l1 IH]; simpl; intros Hs x y Hx Hy; [contradiction|].
  inversion Hs as [|? ? Htl Hall]; subst.
  destruct Hx as [<-|Hx].
  - rewrite Forall_forall in Hall. apply Hall, in_or_app. now right.
  - now apply IH.
Qed.

Section TopN.
Context {K : Type} `{GroupKey K}.
Variables (t : list Row) (g : Row -> K) (v : Row -> Z) (n : nat).

(** The first [n] of any descending arrangement of the grouped sums. *)
Lemma head_of_descending_sums (sorted : list (K * Z)) :
  Permutation sorted (groupby_sum g v t) ->
  StronglySorted sum_ge sorted ->
  top_n_contract t g v n (head n sorted).
Proof.
  intros Hperm Hdesc. unfold top_n_contract, head.
  split; [|split; [|split; [|split]]].
  - rewrite length_firstn, (Permutation_length Hperm).
    unfold groupby_sum. now rewrite length_map, group_keys_length.
  - assert (Hkeys : NoDup (map fst sorted)).
    { apply (Permutation_NoDup (Permutation_sym (Permutation_map fst Hperm))).
      rewrite groupby_sum_keys. apply group_keys_NoDup. }
    rewrite <- (firstn_skipn n sorted), map_app in Hkeys.
    now apply NoDup_app_remove_r in Hkeys.
  - now apply StronglySorted_firstn.
  - intros e He. apply (Permutation_in _ Hperm). now apply firstn_incl in He.
  - intros e e' He He' Hout.
    apply (Permutation_in _ (Permutation_sym Hperm)) in He'.
    rewrite <- (firstn_skipn n sorted) in He', Hdesc.
    apply in_app_or in He'. destruct He' as [He'|He']; [contradiction|].
    exact (StronglySorted_app_cross sum_ge _ _ Hdesc e e' He He').
Qed.
End TopN.

(** C4, as the script has it: the top-N view has min(n, number of
    distinct group values) entries, no group twice; its sums never
    increase along the sequence, and equal sums can follow one another;
    every entry is an entry of the grouped sums, and no group left out
    has a larger sum than a group kept.  The same holds of the first n
    of any descending arrangement of the grouped sums, whichever order
    the sort gives to equal sums. *)
Theorem top_n_by_sum_descending_prefix {K : Type} `{GroupKey K}
  (t : list Row) (g : Row -> K) (v : Row -> Z) (n : nat) :
  top_n_contract t g v n (top_n_by_sum t g v n)
  /\ (forall sorted,
        Permutation sorted (groupby_sum g v t) ->
        StronglySorted sum_ge sorted ->
        top_n_contract t g v n (head n sorted)).
Proof.
  split.
  - apply head_of_descending_sums.
    + apply sort_values_perm.
    + apply sort_values_descending.
  - apply head_of_descending_sums.
Qed.

(** C4 as claimed fails: Desk and Lamp both sum to 100, so the two
    entries are not strictly descending, in whichever order a sort
    puts them; and Desk comes first although Lamp is the product the
    table meets first. *)
Lemma top_n_ties_not_strict_nor_first_seen :
  top_n_by_sum sample_df Product Final_Price 10
  = [("Desk", 100); ("Lamp", 100)]%string
  /\ unique (column Product sample_df) = ["Lamp"; "Desk"]%string
  /\ ~ Sorted sum_gt (top_n_by_sum sample_df Product Final_Price 10)
  /\ (forall sorted,
        Permutation sorted (groupby_sum Product Final_Price sample_df) ->
        ~ Sorted sum_gt (head 10 sorted)).
Proof.
  assert (Hties : forall l : list (string * Z),
             Permutation l [("Desk", 100); ("Lamp", 100)]%string ->
             ~ Sorted sum_gt (head 10 l)).
  { intros l Hl Hs. apply Permutation_sym, Permutation_length_2_inv in Hl.
    destruct Hl as [->| ->]; simpl in Hs;
      inversion Hs as [|a l' _ Hhd]; subst;
      inversion Hhd as [|b l'' Hab]; subst;
      unfold sum_gt in Hab; simpl in Hab; lia. }
  split; [reflexivity|]. split; [reflexivity|]. split.
  - apply (Hties (sort_values false (groupby_sum Product Final_Price sample_df))).
    apply sort_values_perm.
  - intros sorted Hperm. now apply Hties.
Qed.

(** The Top 10 Products panel is the view at Product, Final_Price, 10. *)
Lemma top_products_is_top_n (t : list Row) :
  top_products t = top_n_by_sum t Product Final_Price 10.
Proof. reflexivity. Qed.

(** ** Monthly trend *)

Lemma load_data_Month (csv : list CsvRecord) (r : Row) :
  In r (load_data csv) ->
  Month r = ts_month (Order_Date r) /\ Year r = ts_year (Order_Date r).
Proof.
  unfold load_data. rewrite in_map_iff.
  intros [c [<- _]]. split; reflexivity.
Qed.

(** C10: the monthly trend has one entry per month number met among
    the filtered rows, and the entry of a month is the sum of
    Final_Price over all filtered rows in that month, whatever their
    year. *)
Theorem monthly_trend_groups_by_month_alone
  (csv : list CsvRecord) (f : Filters) :
  NoDup (map fst (monthly_data (df_filtered (load_data csv) f)))
  /\ forall m s,
       In (m, s) (monthly_data (df_filtered (load_data csv) f)) <->
       (exists r, In r (df_filtered (load_data csv) f)
                  /\ ts_month (Order_Date r) = m)
       /\ s = sum (column Final_Price
                     (filter (fun r => ts_month (Order_Date r) =? m)
                             (df_filtered (load_data csv) f))).
Proof.
  assert (Hmonth : forall r, In r (df_filtered (load_data csv) f) ->
                             Month r = ts_month (Order_Date r)).
  { intros r Hr. rewrite df_filtered_as_filter in Hr.
    apply filter_In in Hr. now apply (load_data_Month csv). }
  unfold monthly_data. split.
  - rewrite groupby_sum_keys. apply group_keys_NoDup.
  - intros m s. rewrite groupby_sum_In.
    unfold get_group, column. rewrite in_map_iff.
    assert (Hgroup :
      filter (fun r => key_eqb (Month r) m) (df_filtered (load_data csv) f)
      = filter (fun r => ts_month (Order_Date r) =? m)
               (df_filtered (load_data csv) f)).
    { apply filter_ext_in. intros r Hr. simpl. now rewrite (Hmonth r Hr). }
    rewrite Hgroup. split.
    + intros [[r [E Hr]] ->]. split; [|reflexivity].
      exists r. split; [assumption|]. now rewrite <- (Hmonth r Hr).
    + intros [[r [Hr E]] ->]. split; [|reflexivity].
      exists r. split; [|assumption]. now rewrite (Hmonth r Hr).
Qed.

(** January 2024 and January 2023 make one point of the trend. *)
Lemma monthly_trend_merges_years :
  map (fun r => (Year r, Month r, Final_Price r)) sample_df
  = [(2024, 1, 100); (2024, 2, 50); (2023, 1, 50)]
  /\ monthly_data sample_df = [(1, 150); (2, 50)].
Proof. split; reflexivity. Qed.

(** * Further properties of the script *)

(** ** Subsequences and nested filters *)

Section SubsequenceFacts.
Context {A : Type}.

Lemma Subsequence_refl (l : list A) : Subsequence l l.
Proof. induction l; now constructor. Qed.

Lemma Subsequence_trans (l1 l2 l3 : list A) :
  Subsequence l1 l2 -> Subsequence l2 l3 -> Subsequence l1 l3.
Proof.
  intros H12 H23. revert l1 H12.
  induction H23 as [|x l2 l3 _ IH|x l2 l3 _ IH]; intros l1 H12.
  - assumption.
  - inversion H12; subst; constructor; auto.
  - constructor. auto.
Qed.

Lemma Subsequence_length (l1 l2 : list A) :
  Subsequence l1 l2 -> (List.length l1 <= List.length l2)%nat.
Proof. induction 1; simpl; lia. Qed.

Lemma filter_refines (p q : A -> bool) (l : list A) :
  (forall x, In x l -> p x = true -> q x = true) ->
  filter p (filter q l) = filter p l.
Proof.
  induction l as [|x l IH]; simpl; intros Hpq; [reflexivity|].
  destruct (q x) eqn:Q; simpl.
  - destruct (p x); rewrite IH; auto.
  - destruct (p x) eqn:P.
    + rewrite (Hpq x (or_introl eq_refl) P) in Q. discriminate.
    + apply IH; auto.
Qed.
End SubsequenceFacts.

(** ** Distinct values, in order of first appearance *)

Section UniqueOrder.
Context {K : Type} `{GroupKey K}.

Lemma unique_of_distinct (s : list K) : NoDup s -> unique s = s.
Proof.
  induction 1 as [|v s Hv Hs IH]; simpl; [reflexivity|].
  rewrite IH. f_equal. apply filter_all.
  intros w Hw. apply negb_true_iff.
  destruct (key_eqb_spec w v) as [->|]; [contradiction | reflexivity].
Qed.

Lemma unique_Subsequence (s : list K) : Subsequence (unique s) s.
Proof.
  induction s as [|v s IH]; simpl; constructor.
  eapply Subsequence_trans; [apply filter_Subsequence | exact IH].
Qed.

Lemma unique_snoc (s : list K) (x : K) :
  unique (s ++ [x])
  = if existsb (key_eqb x) s then unique s else unique s ++ [x].
Proof.
  induction s as [|v s IH]; [reflexivity|].
  cbn [app unique existsb]. rewrite IH.
  destruct (key_eqb x v) eqn:Exv; cbn [orb].
  - destruct (existsb (key_eqb x) s); [reflexivity|].
    rewrite filter_app. cbn [filter]. rewrite Exv. cbn [negb].
    now rewrite app_nil_r.
  - destruct (existsb (key_eqb x) s); [reflexivity|].
    rewrite filter_app. cbn [filter]. rewrite Exv. reflexivity.
Qed.

(** X1: [unique] keeps one copy of every value of the column and of
    nothing else, in the order the values first appear: reading the
    column from its first cell on, a value is put at the end of the
    result when it has not been met before, and is passed over
    otherwise; applied to its own result it changes nothing. *)
Theorem unique_distinct_in_first_seen_order (s : list K) :
  NoDup (unique s)
  /\ (forall x, In x (unique s) <-> In x s)
  /\ (forall x, unique (s ++ [x])
                = if existsb (key_eqb x) s then unique s else unique s ++ [x])
  /\ Subsequence (unique s) s
  /\ unique (unique s) = unique s.
Proof.
  split; [apply unique_NoDup|].
  split; [intros x; apply unique_In|].
  split; [intros x; apply unique_snoc|].
  split; [apply unique_Subsequence|].
  apply unique_of_distinct, unique_NoDup.
Qed.
End UniqueOrder.

(** ** Date bounds of the sidebar *)

Lemma fold_ts_min_attained (s : list Timestamp) (d : Timestamp) :
  fold_left ts_min s d = d \/ In (fold_left ts_min s d) s.
Proof.
  revert d. induction s as [|y s IH]; simpl; intros d; [now left|].
  destruct (IH (ts_min d y)) as [E|Hin]; [|now right; right].
  rewrite E. unfold ts_min. destruct (ts_leb d y); auto.
Qed.

Lemma fold_ts_max_attained (s : list Timestamp) (d : Timestamp) :
  fold_left ts_max s d = d \/ In (fold_left ts_max s d) s.
Proof.
  revert d. induction s as [|y s IH]; simpl; intros d; [now left|].
  destruct (IH (ts_max d y)) as [E|Hin]; [|now right; right].
  rewrite E. unfold ts_max. destruct (ts_leb d y); auto.
Qed.

Lemma series_min_attained (s : list Timestamp) (lo : Timestamp) :
  series_min s = Some lo -> In lo s.
Proof.
  destruct s as [|d s]; simpl; [discriminate|]. intros [= <-].
  destruct (fold_ts_min_attained s d) as [->|Hin]; auto.
Qed.

Lemma series_max_attained (s : list Timestamp) (hi : Timestamp) :
  series_max s = Some hi -> In hi s.
Proof.
  destruct s as [|d s]; simpl; [discriminate|]. intros [= <-].
  destruct (fold_ts_max_attained s d) as [->|Hin]; auto.
Qed.

(** X2: the bounds of the date pickers are dates of the table, the
    first one at or before the second, and every Order_Date of the
    table lies between them. *)
Theorem date_bounds_attained_and_enclosing
  (df : list Row) (lo hi : Timestamp) :
  min_date df = Some lo ->
  max_date df = Some hi ->
  (exists r, In r df /\ Order_Date r = lo)
  /\ (exists r, In r df /\ Order_Date r = hi)
  /\ ts_le lo hi
  /\ (forall r, In r df -> ts_le lo (Order_Date r) /\ ts_le (Order_Date r) hi).
Proof.
  unfold min_date, max_date, column, ts_le. intros Hlo Hhi.
  pose proof (series_min_attained _ _ Hlo) as Alo.
  pose proof (series_max_attained _ _ Hhi) as Ahi.
  apply in_map_iff in Alo. apply in_map_iff in Ahi.
  destruct Alo as [rlo [Elo Hrlo]]. destruct Ahi as [rhi [Ehi Hrhi]].
  split; [now exists rlo|]. split; [now exists rhi|].
  split.
  - rewrite <- Ehi. apply (series_min_lower _ _ _ Hlo). now apply in_map.
  - intros r Hr. split.
    + apply (series_min_lower _ _ _ Hlo). now apply in_map.
    + apply (series_max_upper _ _ _ Hhi). now apply in_map.
Qed.

Lemma date_bounds_attained_and_enclosing_witness :
  (exists r, In r sample_df /\ Order_Date r = mkTimestamp 2023 1 20)
  /\ (exists r, In r sample_df /\ Order_Date r = mkTimestamp 2024 2 10)
  /\ ts_le (mkTimestamp 2023 1 20) (mkTimestamp 2024 2 10)
  /\ (forall r, In r sample_df ->
                ts_le (mkTimestamp 2023 1 20) (Order_Date r)
                /\ ts_le (Order_Date r) (mkTimestamp 2024 2 10)).
Proof.
  apply date_bounds_attained_and_enclosing; reflexivity.
Defined.

(** X3: a table without rows has no default inputs (there is no
    earliest or latest date); a table with rows has them, and with them
    the dashboard shows the whole table. *)
Theorem default_filters_show_whole_table (df : list Row) :
  match default_filters df with
  | None => df = []
  | Some f => df <> [] /\ df_filtered df f = df
  end.
Proof.
  destruct (default_filters df) as [f|] eqn:Hf.
  - split; [|now apply default_filters_keep_table].
    intros ->. discriminate.
  - destruct df as [|r df]; [reflexivity | discriminate].
Qed.

(** ** Narrowing and splitting the selection *)

Lemma retained_same_members (f f' : Filters) (r : Row) :
  start_date f = start_date f' ->
  end_date f = end_date f' ->
  (forall x, In x (categories f) <-> In x (categories f')) ->
  (forall x, In x (regions f) <-> In x (regions f')) ->
  (forall x, In x (segments f) <-> In x (segments f')) ->
  Contract.retained f r = Contract.retained f' r.
Proof.
  intros Hs He Hc Hr Hg.
  apply eq_true_iff_eq. rewrite !retained_meets.
  unfold meets. rewrite Hs, He, Hc, Hr, Hg. tauto.
Qed.

(** X4: the result depends on the selections as sets only: the order in
    which values were picked and repeated values make no difference. *)
Theorem filter_ignores_selection_order (df : list Row) (f f' : Filters) :
  start_date f = start_date f' ->
  end_date f = end_date f' ->
  (forall x, In x (categories f) <-> In x (categories f')) ->
  (forall x, In x (regions f) <-> In x (regions f')) ->
  (forall x, In x (segments f) <-> In x (segments f')) ->
  df_filtered df f = df_filtered df f'.
Proof.
  intros Hs He Hc Hr Hg. rewrite !df_filtered_as_filter.
  apply filter_ext. intros r. now apply retained_same_members.
Qed.

Lemma filter_ignores_selection_order_witness :
  df_filtered sample_df january_filters
  = df_filtered sample_df
      {| start_date := mkTimestamp 2024 1 1;
         end_date := mkTimestamp 2024 1 31;
         categories := ["A"; "A"]%string;
         regions := ["West"]%string;
         segments := ["Consumer"; "Consumer"]%string |}.
Proof.
  apply filter_ignores_selection_order; try reflexivity;
    intros x; simpl; tauto.
Defined.

Lemma narrows_retained (f f' : Filters) (r : Row) :
  narrows f f' -> Contract.retained f r = true -> Contract.retained f' r = true.
Proof.
  intros (Hs & He & Hc & Hr & Hg). rewrite !retained_meets.
  unfold meets, ts_le in *. intros ([Hlo Hhi] & Ic & Ir & Ig).
  repeat split; auto.
  - eapply ts_leb_trans; eassumption.
  - eapply ts_leb_trans; eassumption.
Qed.

(** X5: narrowing the criteria never brings in a row: the narrower
    result is the wider result with rows left out, it is what filtering
    the wider result gives, and it has no more orders. *)
Theorem narrowing_filters_only_removes_rows (df : list Row) (f f' : Filters) :
  narrows f f' ->
  Subsequence (df_filtered df f) (df_filtered df f')
  /\ df_filtered (df_filtered df f') f = df_filtered df f
  /\ total_customers (df_filtered df f) <= total_customers (df_filtered df f').
Proof.
  intros Hn.
  assert (E : df_filtered (df_filtered df f') f = df_filtered df f).
  { rewrite (df_filtered_as_filter (df_filtered df f')).
    rewrite !df_filtered_as_filter.
    apply filter_refines. intros r _. now apply narrows_retained. }
  assert (S : Subsequence (df_filtered df f) (df_filtered df f')).
  { rewrite <- E. rewrite (df_filtered_as_filter (df_filtered df f')).
    apply filter_Subsequence. }
  split; [exact S|]. split; [exact E|].
  unfold total_customers, len. apply Nat2Z.inj_le.
  now apply Subsequence_length.
Qed.

Lemma narrowing_filters_only_removes_rows_witness :
  Subsequence (df_filtered sample_df january_filters)
              (df_filtered sample_df
                 {| start_date := mkTimestamp 2023 1 1;
                    end_date := mkTimestamp 2024 12 31;
                    categories := ["A"; "B"]%string;
                    regions := ["West"; "East"]%string;
                    segments := ["Consumer"]%string |})
  /\ df_filtered
       (df_filtered sample_df
          {| start_date := mkTimestamp 2023 1 1;
             end_date := mkTimestamp 2024 12 31;
             categories := ["A"; "B"]%string;
             regions := ["West"; "East"]%string;
             segments := ["Consumer"]%string |})
       january_filters
     = df_filtered sample_df january_filters
  /\ total_customers (df_filtered sample_df january_filters)
     <= total_customers
          (df_filtered sample_df
             {| start_date := mkTimestamp 2023 1 1;
                end_date := mkTimestamp 2024 12 31;
                categories := ["A"; "B"]%string;
                regions := ["West"; "East"]%string;
                segments := ["Consumer"]%string |}).
Proof.
  apply narrowing_filters_only_removes_rows.
  unfold narrows, incl; simpl.
  repeat split; try reflexivity; intros x Hx; tauto.
Defined.

(** X6: every row is judged on its own: filtering two tables put end
    to end gives the two results put end to end, and filtering never
    yields more rows than it was given. *)
Theorem filter_row_by_row (df1 df2 : list Row) (f : Filters) :
  df_filtered (df1 ++ df2) f = df_filtered df1 f ++ df_filtered df2 f
  /\ 0 <= total_customers (df_filtered df1 f) <= total_customers df1.
Proof.
  rewrite !df_filtered_as_filter. split; [apply filter_app|].
  unfold total_customers, len. split; [lia|].
  apply Nat2Z.inj_le, Subsequence_length, filter_Subsequence.
Qed.

(** ** Key metrics *)

Lemma df_filtered_In (df : list Row) (f : Filters) (r : Row) :
  In r (df_filtered df f) <-> In r df /\ meets f r.
Proof.
  rewrite df_filtered_as_filter, filter_In, retained_meets. tauto.
Qed.

Lemma sum_bool_count {X : Type} (p : X -> bool) (l : list X) :
  sum_bool (map p l) = Z.of_nat (List.length (filter p l)).
Proof.
  unfold sum_bool, sum. induction l as [|x l IH]; [reflexivity|].
  simpl map. simpl fold_right. simpl filter. rewrite IH.
  destruct (p x); simpl List.length; simpl Z.b2z; lia.
Qed.

Lemma sum_ones {X : Type} (l : list X) :
  sum (map (fun _ => 1) l) = len l.
Proof.
  unfold sum, len. induction l as [|x l IH]; [reflexivity|].
  cbn [map fold_right List.length]. rewrite IH, Nat2Z.inj_succ. lia.
Qed.

(** X7: the "orders with a discount" figure is the number of rows whose
    Discount_Percent is above 0; it is never negative and never above
    the order count. *)
Theorem discounted_orders_counts_rows (t : list Row) :
  discounted_orders t = len (filter discounted t)
  /\ 0 <= discounted_orders t <= total_customers t.
Proof.
  assert (E : discounted_orders t = len (filter discounted t)).
  { unfold discounted_orders, series_gt, column. rewrite map_map.
    apply (sum_bool_count discounted). }
  split; [exact E|]. rewrite E. unfold total_customers, len.
  split; [lia|].
  apply Nat2Z.inj_le, Subsequence_length, filter_Subsequence.
Qed.

(** X10: the number of segments shown beside the order count is at most
    the number of segments selected and at most the number of segments
    of the whole table. *)
Theorem segment_count_bounded (df : list Row) (f : Filters) :
  0 <= segment_count (df_filtered df f) <= len (segments f)
  /\ segment_count (df_filtered df f) <= segment_count df.
Proof.
  unfold segment_count, len, column.
  assert (Hsel : forall x,
             In x (unique (map Customer_Segment (df_filtered df f))) ->
             In x (segments f) /\ In x (unique (map Customer_Segment df))).
  { intros x Hx. apply unique_In, in_map_iff in Hx.
    destruct Hx as [r [<- Hr]].
    apply df_filtered_In in Hr.
    destruct Hr as [Hr (_ & _ & _ & Hseg)].
    split; [exact Hseg|]. apply unique_In. now apply in_map. }
  split; [split; [lia|]|]; apply Nat2Z.inj_le, NoDup_incl_length;
    try apply unique_NoDup; intros x Hx; now apply Hsel.
Qed.

(** ** The chart panels *)

Lemma sort_values_In {K : Type} (ascending : bool) (e : K * Z) (s : list (K * Z)) :
  In e (sort_values ascending s) <-> In e s.
Proof.
  split; apply Permutation_in;
    [|symmetry]; apply sort_values_perm.
Qed.

Lemma sort_values_keys_NoDup {K : Type} (ascending : bool) (s : list (K * Z)) :
  NoDup (map fst s) -> NoDup (map fst (sort_values ascending s)).
Proof.
  apply Permutation_NoDup, Permutation_map, Permutation_sym, sort_values_perm.
Qed.

Lemma sort_values_sum {K : Type} (ascending : bool) (s : list (K * Z)) :
  sum (map snd (sort_values ascending s)) = sum (map snd s).
Proof. apply sum_perm, Permutation_map, sort_values_perm. Qed.

Lemma ascending_distinct_strict (l : list Z) :
  Sorted (fun a b => (a <=? b) = true) l -> NoDup l -> Sorted Z.lt l.
Proof.
  induction 1 as [|a l Hl IH Ha]; intros Hd; constructor.
  - apply IH. now inversion Hd.
  - destruct Ha as [|b l Hab]; constructor.
    apply Z.leb_le in Hab. inversion Hd as [|? ? Hnotin _]; subst.
    assert (a <> b) by (intros ->; apply Hnotin; now left).
    lia.
Qed.

(** X12: the Revenue by Category bars go from the smallest revenue to
    the largest; there is one bar for each category among the selected
    rows, it carries the revenue of the rows of that category, and its
    category is one of those selected in the sidebar. *)
Theorem category_bars_ascending_and_selected (df : list Row) (f : Filters) :
  StronglySorted (fun a b : string * Z => snd a <= snd b)
                 (category_data (df_filtered df f))
  /\ NoDup (map fst (category_data (df_filtered df f)))
  /\ (forall k s,
        In (k, s) (category_data (df_filtered df f)) <->
        In k (column Category (df_filtered df f))
        /\ s = sum (column Final_Price
                      (filter (fun r => (Category r =? k)%string)
                              (df_filtered df f))))
  /\ (forall k s,
        In (k, s) (category_data (df_filtered df f)) -> In k (categories f)).
Proof.
  unfold category_data.
  assert (Hentry : forall k s,
        In (k, s) (sort_values true
                     (groupby_sum Category Final_Price (df_filtered df f))) <->
        In k (column Category (df_filtered df f))
        /\ s = sum (column Final_Price
                      (filter (fun r => (Category r =? k)%string)
                              (df_filtered df f)))).
  { intros k s. rewrite sort_values_In.
    exact (groupby_sum_In Category Final_Price k s (df_filtered df f)). }
  split; [apply sort_values_ascending|].
  split.
  { apply sort_values_keys_NoDup. rewrite groupby_sum_keys.
    apply group_keys_NoDup. }
  split; [exact Hentry|].
  intros k s Hks. apply Hentry in Hks. destruct Hks as [Hk _].
  apply in_map_iff in Hk. destruct Hk as [r [<- Hr]].
  apply df_filtered_In in Hr. now destruct Hr as [_ (_ & Hc & _)].
Qed.

(** X13: the Customer Segments bars go from the largest revenue to the
    smallest, one bar for each segment among the rows, carrying the
    revenue of that segment; there are as many bars as the segments
    figure beside the order count says. *)
Theorem segment_bars_descending_and_counted (t : list Row) :
  StronglySorted sum_ge (segment_data t)
  /\ NoDup (map fst (segment_data t))
  /\ (forall k s,
        In (k, s) (segment_data t) <->
        In k (column Customer_Segment t)
        /\ s = sum (column Final_Price
                      (filter (fun r => (Customer_Segment r =? k)%string) t)))
  /\ len (segment_data t) = segment_count t.
Proof.
  unfold segment_data.
  split; [apply sort_values_descending|].
  split.
  { apply sort_values_keys_NoDup. rewrite groupby_sum_keys.
    apply group_keys_NoDup. }
  split.
  { intros k s. rewrite sort_values_In.
    exact (groupby_sum_In Customer_Segment Final_Price k s t). }
  unfold segment_count, len. f_equal.
  rewrite (Permutation_length (sort_values_perm false _)).
  unfold groupby_sum. rewrite length_map. apply group_keys_length.
Qed.

(** X14: the points of the monthly trend come in strictly ascending
    order of month number, one point for each month number that occurs
    among the rows. *)
Theorem monthly_points_in_month_order (t : list Row) :
  Sorted Z.lt (map fst (monthly_data t))
  /\ (forall m, In m (map fst (monthly_data t)) <-> In m (column Month t)).
Proof.
  unfold monthly_data. rewrite groupby_sum_keys. split.
  - apply ascending_distinct_strict.
    + apply (argsort_Sorted Z.leb). intros a b. rewrite !Z.leb_le. lia.
    + apply group_keys_NoDup.
  - intros m. apply group_keys_In.
Qed.

(** X15: when every date of the file has a month from 1 to 12, the
    monthly trend of any selection has at most 12 points, each at a
    month from 1 to 12. *)
Theorem monthly_trend_at_most_twelve_points
  (csv : list CsvRecord) (f : Filters) :
  (forall c, In c csv -> 1 <= ts_month (csv_Order_Date c) <= 12) ->
  (List.length (monthly_data (df_filtered (load_data csv) f)) <= 12)%nat
  /\ (forall m s, In (m, s) (monthly_data (df_filtered (load_data csv) f)) ->
                  1 <= m <= 12).
Proof.
  intros Hvalid.
  assert (Hkey : forall m,
             In m (group_keys Month (df_filtered (load_data csv) f)) ->
             1 <= m <= 12).
  { intros m Hm. apply group_keys_In, in_map_iff in Hm.
    destruct Hm as [r [<- Hr]]. apply df_filtered_In in Hr.
    destruct Hr as [Hr _]. unfold load_data in Hr.
    apply in_map_iff in Hr. destruct Hr as [c [<- Hc]]. simpl.
    now apply Hvalid. }
  unfold monthly_data. split.
  - unfold groupby_sum. rewrite length_map.
    change 12%nat with (List.length (map Z.of_nat (seq 1 12))).
    apply NoDup_incl_length; [apply group_keys_NoDup|].
    intros m Hm. apply Hkey in Hm.
    apply in_map_iff. exists (Z.to_nat m). split; [lia|].
    apply in_seq. lia.
  - intros m s Hms. apply Hkey.
    rewrite <- (groupby_sum_keys Month Final_Price).
    apply in_map_iff. now exists (m, s).
Qed.

Lemma monthly_trend_at_most_twelve_points_witness :
  (List.length (monthly_data (df_filtered (load_data sample_csv) january_filters))
   <= 12)%nat
  /\ (forall m s,
        In (m, s) (monthly_data (df_filtered (load_data sample_csv) january_filters)) ->
        1 <= m <= 12).
Proof.
  apply monthly_trend_at_most_twelve_points.
  intros c Hc. simpl in Hc.
  destruct Hc as [<-|[<-|[<-|[]]]]; simpl; lia.
Defined.

(** X16: the slices of the regional split come in ascending order of
    region name, one slice for each region among the selected rows, and
    every slice is a region selected in the sidebar. *)
Theorem region_slices_in_name_order (df : list Row) (f : Filters) :
  Sorted (fun a b => (a <=? b)%string = true)
         (map fst (region_data (df_filtered df f)))
  /\ NoDup (map fst (region_data (df_filtered df f)))
  /\ (forall k, In k (map fst (region_data (df_filtered df f))) <->
                In k (column Region (df_filtered df f)))
  /\ (forall k, In k (map fst (region_data (df_filtered df f))) ->
                In k (regions f)).
Proof.
  unfold region_data. rewrite groupby_sum_keys.
  split; [apply (argsort_Sorted String.leb), String.leb_total|].
  split; [apply group_keys_NoDup|].
  split; [intros k; apply group_keys_In|].
  intros k Hk. apply group_keys_In, in_map_iff in Hk.
  destruct Hk as [r [<- Hr]]. apply df_filtered_In in Hr.
  now destruct Hr as [_ (_ & _ & Hreg & _)].
Qed.

(** *** Payment methods *)

Section ValueCounts.
Context {R K : Type} `{GroupKey K} (g : R -> K).

Lemma value_counts_In (k : K) (c : Z) (t : list R) :
  In (k, c) (value_counts g t) <->
  In k (column g t) /\ c = len (get_group g k t).
Proof.
  unfold value_counts. rewrite sort_values_In, in_map_iff. split.
  - intros [k' [[= -> <-] Hk]]. split; [now apply unique_In | reflexivity].
  - intros [Hk ->]. exists k. split; [reflexivity | now apply unique_In].
Qed.

Lemma value_counts_total (t : list R) :
  sum (map snd (value_counts g t)) = len t.
Proof.
  unfold value_counts. rewrite sort_values_sum, map_map. simpl.
  transitivity (sum (column (fun _ : R => 1) t)); [|apply sum_ones].
  rewrite <- (group_sums_cover g (fun _ => 1) (unique (column g t)) t).
  - f_equal. apply map_ext. intros k. symmetry. apply sum_ones.
  - apply unique_NoDup.
  - intros r Hr. apply unique_In. unfold column. now apply in_map.
Qed.

Lemma get_group_present (k : K) (t : list R) :
  In k (column g t) -> 1 <= len (get_group g k t).
Proof.
  unfold column, get_group, len. rewrite in_map_iff.
  intros [r [<- Hr]].
  assert (Hin : In r (filter (fun r0 => key_eqb (g r0) (g r)) t)).
  { apply filter_In. split; [assumption | apply key_eqb_refl]. }
  destruct (filter (fun r0 => key_eqb (g r0) (g r)) t); [contradiction|].
  simpl List.length. lia.
Qed.
End ValueCounts.

(** X17: the Payment Methods bars go from the most used method to the
    least used, one bar for each method among the rows; a bar carries
    the number of rows paid that way, which is at least 1, and the bars
    add up to the order count. *)
Theorem payment_bars_count_every_order (t : list Row) :
  StronglySorted sum_ge (payment_data t)
  /\ NoDup (map fst (payment_data t))
  /\ (forall k c,
        In (k, c) (payment_data t) <->
        In k (column Payment_Method t)
        /\ c = len (filter (fun r => (Payment_Method r =? k)%string) t))
  /\ (forall k c, In (k, c) (payment_data t) -> 1 <= c)
  /\ sum (map snd (payment_data t)) = total_customers t.
Proof.
  unfold payment_data.
  split; [apply sort_values_descending|].
  split.
  { unfold value_counts. apply sort_values_keys_NoDup.
    rewrite map_map. simpl. rewrite map_id. apply unique_NoDup. }
  split; [intros k c; exact (value_counts_In Payment_Method k c t)|].
  split; [|apply value_counts_total].
  intros k c Hkc. apply value_counts_In in Hkc.
  destruct Hkc as [Hk ->]. now apply get_group_present.
Qed.

(** *** Top 10 products *)

(** X18: no product left out of the Top 10 has a larger revenue than a
    product shown in it. *)
Theorem top_products_dominate_the_rest (t : list Row) (e e' : string * Z) :
  In e (top_products t) ->
  In e' (groupby_sum Product Final_Price t) ->
  ~ In e' (top_products t) ->
  snd e' <= snd e.
Proof.
  unfold top_products, head.
  set (l := sort_values false (groupby_sum Product Final_Price t)).
  intros He He' Hout.
  assert (Hl : In e' l) by (now apply sort_values_In).
  rewrite <- (firstn_skipn 10 l) in Hl.
  apply in_app_or in Hl. destruct Hl as [Hl|Hl]; [contradiction|].
  pose proof (sort_values_descending (groupby_sum Product Final_Price t)) as Hs.
  fold l in Hs. rewrite <- (firstn_skipn 10 l) in Hs.
  exact (StronglySorted_app_cross sum_ge _ _ Hs e e' He Hl).
Qed.

Lemma top_products_dominate_the_rest_witness :
  snd ("A"%string, 1) <= snd ("K"%string, 11).
Proof.
  apply (top_products_dominate_the_rest eleven_products).
  - vm_compute. tauto.
  - vm_compute. tauto.
  - vm_compute. intros Hin.
    repeat (destruct Hin as [Hin|Hin]; [discriminate|]). exact Hin.
Defined.

(** X20: with at most ten products among the rows [head(10)] cuts
    nothing: the Top 10 is the whole descending series of the product
    sums, with one entry for every product among the rows. *)
Theorem top_products_complete_up_to_ten (t : list Row) :
  (List.length (unique (column Product t)) <= 10)%nat ->
  top_products t = sort_values false (groupby_sum Product Final_Price t)
  /\ List.length (top_products t) = List.length (unique (column Product t))
  /\ (forall p, In p (column Product t) -> In p (map fst (top_products t))).
Proof.
  intros Hfew.
  pose proof (sort_values_perm false (groupby_sum Product Final_Price t))
    as Hperm.
  assert (Hlen : List.length (sort_values false
                                (groupby_sum Product Final_Price t))
                 = List.length (unique (column Product t))).
  { rewrite (Permutation_length Hperm).
    unfold groupby_sum. now rewrite length_map, group_keys_length. }
  assert (E : top_products t
              = sort_values false (groupby_sum Product Final_Price t)).
  { unfold top_products, head. apply firstn_all2. now rewrite Hlen. }
  split; [exact E|]. rewrite E. split; [exact Hlen|].
  intros p Hp.
  apply (Permutation_in _ (Permutation_sym (Permutation_map fst Hperm))).
  rewrite groupby_sum_keys. now apply group_keys_In.
Qed.

Lemma top_products_complete_up_to_ten_witness :
  top_products sample_df
  = sort_values false (groupby_sum Product Final_Price sample_df)
  /\ List.length (top_products sample_df)
     = List.length (unique (column Product sample_df))
  /\ (forall p, In p (column Product sample_df) ->
                In p (map fst (top_products sample_df))).
Proof.
  apply top_products_complete_up_to_ten. vm_compute. lia.
Defined.

(** *** Detailed sales data *)

(** X21: the data table shows the first 100 rows of the selection, in
    their order and with the values of the eight columns, and nothing
    beyond the hundredth row. *)
Theorem detail_table_first_hundred_rows (t : list Row) (i : nat) :
  List.length (detail_table t) = Nat.min 100 (List.length t)
  /\ nth_error (detail_table t) i
     = if (i <? 100)%nat
       then option_map detail_columns (nth_error t i)
       else None.
Proof.
  unfold detail_table, head. split.
  - now rewrite length_firstn, length_map.
  - rewrite nth_error_firstn, nth_error_map. reflexivity.
Qed.

(** ** The calendar columns of [load_data] *)

Lemma month_name_inj (m m' : Z) :
  1 <= m <= 12 -> 1 <= m' <= 12 -> month_name m = month_name m' -> m = m'.
Proof.
  intros Hm Hm'.
  assert (Em : m = 1 \/ m = 2 \/ m = 3 \/ m = 4 \/ m = 5 \/ m = 6 \/ m = 7
               \/ m = 8 \/ m = 9 \/ m = 10 \/ m = 11 \/ m = 12) by lia.
  assert (Em' : m' = 1 \/ m' = 2 \/ m' = 3 \/ m' = 4 \/ m' = 5 \/ m' = 6
                \/ m' = 7 \/ m' = 8 \/ m' = 9 \/ m' = 10 \/ m' = 11
                \/ m' = 12) by lia.
  clear Hm Hm'.
  repeat (destruct Em as [->|Em]); try subst m;
    repeat (destruct Em' as [->|Em']); try subst m';
    simpl; intros E; try reflexivity; discriminate E.
Qed.

Lemma month_name_given (m : Z) : 1 <= m <= 12 -> month_name m <> EmptyString.
Proof.
  intros Hm.
  assert (Em : m = 1 \/ m = 2 \/ m = 3 \/ m = 4 \/ m = 5 \/ m = 6 \/ m = 7
               \/ m = 8 \/ m = 9 \/ m = 10 \/ m = 11 \/ m = 12) by lia.
  repeat (destruct Em as [->|Em]); try subst m; discriminate.
Qed.

(** X22: loading keeps one row per record of the file, with the file's
    values; and among loaded rows whose dates have a month from 1 to
    12, the month name is never empty and two rows have the same month
    name exactly when they have the same month number. *)
Theorem month_name_identifies_month (csv : list CsvRecord) (r1 r2 : Row) :
  In r1 (load_data csv) ->
  In r2 (load_data csv) ->
  1 <= Month r1 <= 12 ->
  1 <= Month r2 <= 12 ->
  List.length (load_data csv) = List.length csv
  /\ column Final_Price (load_data csv) = map csv_Final_Price csv
  /\ column Order_Date (load_data csv) = map csv_Order_Date csv
  /\ Month_Name r1 <> EmptyString
  /\ (Month_Name r1 = Month_Name r2 <-> Month r1 = Month r2).
Proof.
  unfold load_data, column. rewrite !in_map_iff, length_map, !map_map.
  intros [c1 [<- _]] [c2 [<- _]]. simpl. intros H1 H2.
  split; [reflexivity|]. split; [reflexivity|]. split; [reflexivity|].
  split; [now apply month_name_given|].
  split; [now apply month_name_inj | now intros ->].
Qed.

Lemma month_name_identifies_month_witness :
  List.length (load_data sample_csv) = List.length sample_csv
  /\ column Final_Price (load_data sample_csv) = map csv_Final_Price sample_csv
  /\ column Order_Date (load_data sample_csv) = map csv_Order_Date sample_csv
  /\ Month_Name (load_row (sale (mkTimestamp 2024 1 5)
                                "A" "Lamp" "West" "Consumer" 100))
     <> EmptyString
  /\ (Month_Name (load_row (sale (mkTimestamp 2024 1 5)
                                 "A" "Lamp" "West" "Consumer" 100))
      = Month_Name (load_row (sale (mkTimestamp 2023 1 20)
                                   "A" "Desk" "West" "Consumer" 50))
      <-> Month (load_row (sale (mkTimestamp 2024 1 5)
                                "A" "Lamp" "West" "Consumer" 100))
          = Month (load_row (sale (mkTimestamp 2023 1 20)
                                  "A" "Desk" "West" "Consumer" 50))).
Proof.
  apply (month_name_identifies_month sample_csv).
  - simpl. tauto.
  - simpl. tauto.
  - simpl. lia.
  - simpl. lia.
Defined.

(** ** Figures as text *)

Lemma format_thousands_examples :
  format_thousands 0 = "0"%string
  /\ format_thousands 999 = "999"%string
  /\ format_thousands 1000 = "1,000"%string
  /\ format_thousands 1234567 = "1,234,567"%string
  /\ format_thousands (-12345) = "-12,345"%string.
Proof. repeat split; reflexivity. Qed.

Lemma string_of_uint_digits (d : Decimal.uint) (c : ascii) :
  In c (list_ascii_of_string (NilEmpty.string_of_uint d)) -> c <> comma.
Proof.
  induction d; simpl; intros Hc; try contradiction;
    (destruct Hc as [<-|Hc]; [discriminate | now apply IHd]).
Qed.

Lemma decimal_digits (n : N) (c : ascii) : In c (decimal n) -> c <> comma.
Proof.
  unfold decimal, NilZero.string_of_uint.
  destruct (N.to_uint n) eqn:E; try (rewrite <- E; apply string_of_uint_digits).
  simpl. intros [<-|[]]. discriminate.
Qed.

Lemma group_thousands_facts (fuel : nat) :
  forall l, (List.length l <= fuel)%nat ->
    (forall c, In c l -> c <> comma) ->
    filter (fun c => negb (Ascii.eqb c comma)) (group_thousands l) = l
    /\ List.length (group_thousands l)
       = (List.length l + (List.length l - 1) / 3)%nat.
Proof.
  induction fuel as [|fuel IH]; intros l Hlen Hdigits.
  - destruct l; [|simpl in Hlen; lia]. split; reflexivity.
  - assert (Hkeep : forall c, In c l -> negb (Ascii.eqb c comma) = true).
    { intros c Hc. apply negb_true_iff, Ascii.eqb_neq. now apply Hdigits. }
    destruct l as [|a [|b [|c [|d rest]]]].
    + split; reflexivity.
    + split; [|reflexivity]. simpl. now rewrite Hkeep by (simpl; auto).
    + split; [|reflexivity]. simpl. now rewrite !Hkeep by (simpl; auto).
    + split; [|reflexivity]. simpl. now rewrite !Hkeep by (simpl; auto).
    + destruct (IH (d :: rest)) as [Hstrip Hsize].
      * simpl in *. lia.
      * intros x Hx. apply Hdigits. simpl in *. tauto.
      * change (group_thousands (a :: b :: c :: d :: rest))
          with (a :: b :: c :: comma :: group_thousands (d :: rest)).
        split.
        -- cbn [filter]. rewrite !Hkeep by (simpl; auto).
           rewrite Hstrip. reflexivity.
        -- cbn [List.length] in *. rewrite Hsize.
           replace (S (S (S (S (List.length rest)))) - 1)%nat
             with (1 * 3 + List.length rest)%nat by lia.
           rewrite Nat.div_add_l by lia.
           replace (S (List.length rest) - 1)%nat
             with (List.length rest) by lia.
           lia.
Qed.

Lemma strip_commas_format (n : N) :
  strip_commas
    (string_of_list_ascii (rev (group_thousands (rev (decimal n)))))
  = NilZero.string_of_uint (N.to_uint n).
Proof.
  unfold strip_commas.
  rewrite list_ascii_of_string_of_list_ascii, filter_rev.
  destruct (group_thousands_facts (List.length (rev (decimal n)))
              (rev (decimal n)) (le_n _)) as [Hstrip _].
  { intros c Hc. apply in_rev in Hc. now apply (decimal_digits n). }
  rewrite Hstrip, rev_involutive. unfold decimal.
  apply string_of_list_ascii_of_string.
Qed.

Lemma to_uint_nonnil (n : N) : N.to_uint n <> Decimal.Nil.
Proof.
  destruct n as [|p]; simpl; [discriminate|].
  apply DecimalPos.Unsigned.to_uint_nonnil.
Qed.

(** X23: the Total Orders card shows the order count in decimal with a
    comma between groups of three digits: dropping the commas and
    reading the digits gives the count back, and the text has one
    comma for every full group of three digits below the leading
    group. *)
Theorem total_orders_value_reads_back (t : list Row) :
  read_count (total_orders_value t) = Some (total_customers t)
  /\ String.length (total_orders_value t)
     = (List.length (decimal (Z.to_N (total_customers t)))
        + (List.length (decimal (Z.to_N (total_customers t))) - 1) / 3)%nat.
Proof.
  unfold total_orders_value, format_thousands, read_count.
  assert (Hcount : 0 <= total_customers t) by (unfold total_customers, len; lia).
  destruct (total_customers t <? 0) eqn:E; [apply Z.ltb_lt in E; lia|].
  rewrite Z.abs_eq by exact Hcount.
  set (n := Z.to_N (total_customers t)).
  split.
  - rewrite strip_commas_format.
    rewrite NilZero.usu by apply to_uint_nonnil. simpl. f_equal.
    rewrite DecimalN.Unsigned.of_to. subst n. now apply Z2N.id.
  - destruct (group_thousands_facts (List.length (rev (decimal n)))
                (rev (decimal n)) (le_n _)) as [_ Hsize].
    { intros c Hc. apply in_rev in Hc. now apply (decimal_digits n). }
    rewrite length_rev in Hsize. rewrite <- Hsize, <- length_rev.
    generalize (rev (group_thousands (rev (decimal n)))).
    intros l. induction l as [|c l IHl]; simpl; congruence.
Qed.
